(** * TabView: selection, layout and event relay of the tabbed container

    A shallow embedding of [dev/TabView/TabView.cpp].  The control is a
    record of its template parts and dependency properties; every call
    it makes on a collaborator (the host [ListView], a column
    definition, an event source, the arguments of an event) is appended
    to an effect trace.  A call through a null reference and a failed
    [as<T>()] conversion stop the handler: they are outcomes of their
    own. *)

From Stdlib Require Import ZArith List Bool Lia String.
From Stdlib Require Import SpecFloat.
Import ListNotations.
Open Scope Z_scope.

(* ================================================================== *)
(** ** 32-bit integers *)

Module Int32.

Definition modulus : Z := 2 ^ 32.
Definition half_modulus : Z := 2 ^ 31.
Definition min_signed : Z := - half_modulus.
Definition max_signed : Z := half_modulus - 1.

(** Two's complement reduction of a mathematical integer to [int]. *)
Definition wrap (z : Z) : Z := (z + half_modulus) mod modulus - half_modulus.

Definition add (a b : Z) : Z := wrap (a + b).

(** [a % b] of C++: the remainder of the division truncated toward zero. *)
Definition rem (a b : Z) : Z := Z.rem a b.

Definition in_range (z : Z) : Prop := min_signed <= z <= max_signed.

End Int32.

Module UInt32.

Definition modulus : Z := 2 ^ 32.

(** [Size()] of a WinRT vector is a [uint32_t]. *)
Definition of_nat (n : nat) : Z := Z.of_nat n mod modulus.

(** [static_cast<int>(u)] *)
Definition to_int (u : Z) : Z := Int32.wrap u.

End UInt32.

(* ================================================================== *)
(** ** IEEE 754 binary64, the [double] of the source *)

Module Double.

Definition prec : Z := 53.
Definition emax : Z := 1024.

Definition t : Type := spec_float.

Definition add : t -> t -> t := SFadd prec emax.
Definition sub : t -> t -> t := SFsub prec emax.
Definition mul : t -> t -> t := SFmul prec emax.
Definition div : t -> t -> t := SFdiv prec emax.

Definition ltb : t -> t -> bool := SFltb.
Definition leb : t -> t -> bool := SFleb.
(** [a >= b] *)
Definition geb (a b : t) : bool := SFleb b a.

(** Conversion of an integer; exact below [2 ^ 53]. *)
Definition of_Z (z : Z) : t := binary_normalize prec emax z 0 false.

Definition zero : t := S754_zero false.
Definition quiet_NaN : t := S754_nan.

Definition is_nan (x : t) : bool :=
  match x with S754_nan => true | _ => false end.

Definition is_finite (x : t) : bool :=
  match x with S754_zero _ | S754_finite _ _ _ => true | _ => false end.

(** [std::clamp(v, lo, hi)]: [lo] if [v < lo], [hi] if [hi < v], else [v]. *)
Definition clamp (v lo hi : t) : t :=
  if ltb v lo then lo else if ltb hi v then hi else v.

End Double.

Definition c_tabMinimumWidth : Double.t := Eval vm_compute in Double.of_Z 48.
Definition c_tabMaximumWidth : Double.t := Eval vm_compute in Double.of_Z 200.

Definition c_tabViewItemMinWidthName : string := "TabViewItemMinWidth".
Definition c_tabViewItemMaxWidthName : string := "TabViewItemMaxWidth".

(* ================================================================== *)
(** ** Objects of the XAML framework *)

(** The runtime classes the control asks for with [try_as] and [as]. *)
Inductive RuntimeClass : Type :=
| TabViewItemClass
| ListViewItemClass
| RepeatButtonClass
| FrameworkElementClass
| InspectableClass.

(** [implements c target]: [QueryInterface] for [target] succeeds on an
    object of class [c].  A [TabViewItem] is a [ListViewItem], and both
    and a [RepeatButton] are [FrameworkElement]s. *)
Definition implements (c target : RuntimeClass) : bool :=
  match target, c with
  | InspectableClass, _ => true
  | FrameworkElementClass, InspectableClass => false
  | FrameworkElementClass, _ => true
  | ListViewItemClass, (TabViewItemClass | ListViewItemClass) => true
  | TabViewItemClass, TabViewItemClass => true
  | RepeatButtonClass, RepeatButtonClass => true
  | _, _ => false
  end.

Inductive Visibility : Type := Visible | Collapsed.

(** A non-null reference.  [obj_id] is the identity that [==] compares;
    the other fields are the properties the control reads. *)
Record IInspectable : Type := {
  obj_id : nat;
  obj_class : RuntimeClass;
  IsEnabled : bool;
  get_Visibility : Visibility;
  IsClosable : bool;
  Content : option nat
}.

(** A reference that may be null. *)
Definition Ref : Type := option IInspectable.

Definition same_object (a b : IInspectable) : bool := Nat.eqb (obj_id a) (obj_id b).

Definition same_ref (a b : Ref) : bool :=
  match a, b with
  | None, None => true
  | Some x, Some y => same_object x y
  | _, _ => false
  end.

Definition is_visible (v : Visibility) : bool :=
  match v with Visible => true | Collapsed => false end.

(** [r.try_as<T>()]: null when [r] is null or is not a [T]. *)
Definition try_as (target : RuntimeClass) (r : Ref) : Ref :=
  match r with
  | Some o => if implements (obj_class o) target then Some o else None
  | None => None
  end.

Inductive GridLength : Type :=
| GridLength_Auto (value : Double.t)
| GridLength_Pixel (pixels : Double.t).

Inductive ScrollBarVisibility : Type :=
| ScrollBar_Disabled | ScrollBar_Auto | ScrollBar_Hidden | ScrollBar_Visible.

Inductive TabViewWidthMode : Type := Equal | SizeToContent.

Inductive FocusNavigationDirection : Type :=
| Direction_Next | Direction_Previous | Direction_Up | Direction_Down
| Direction_Left | Direction_Right | Direction_None.

Inductive FocusInputDeviceKind : Type :=
| Device_None | Device_Mouse | Device_Touch | Device_Pen | Device_Keyboard
| Device_GameController.

Inductive CollectionChange : Type := Reset | ItemInserted | ItemRemoved | ItemChanged.

(** [DataPackageOperation] is a flags enumeration over [uint32_t]. *)
Definition DataPackageOperation : Type := Z.
Definition DataPackageOperation_None : DataPackageOperation := 0.
Definition DataPackageOperation_Copy : DataPackageOperation := 1.
Definition DataPackageOperation_Move : DataPackageOperation := 2.
Definition DataPackageOperation_Link : DataPackageOperation := 4.

Inductive ClickHandler : Type := OnScrollDecreaseClick_handler | OnScrollIncreaseClick_handler.

(** Calls the control makes on its collaborators, in the order made. *)
Inductive Effect : Type :=
| RightContentColumn_MinWidth (w : Double.t)
| TabColumn_MaxWidth (w : Double.t)
| TabColumn_Width (g : GridLength)
| ListView_MaxWidth (w : Double.t)
| ListView_HorizontalScrollBarVisibility (v : ScrollBarVisibility)
| TabViewItem_Width (tvi : IInspectable) (w : Double.t)
| ListView_SelectedIndex (i : Z)
| ListView_SelectedItem (tvi : IInspectable)
| TabViewItem_IsSelected (tvi : IInspectable) (b : bool)
| TabCloseRequested (item : Ref) (tab : IInspectable)
| TabViewItem_RaiseRequestClose (tab : IInspectable) (item : Ref)
| TabDragStarting (item : IInspectable) (tab : Ref)
| TabDragCompleted (item : IInspectable) (tab : Ref)
| TabDroppedOutside (item : IInspectable) (tab : Ref)
| GettingFocus_TrySetNewFocusedElement (next : Ref)
| Dispatcher_RunAsync_SetFocus (next : Ref)
| GettingFocus_Cancel (b : bool)
| GettingFocus_Handled (b : bool)
| KeyboardAccelerator_Handled (b : bool)
| Button_Click (button : IInspectable) (handler : ClickHandler).

Record ColumnDefinition : Type := { column_ActualWidth : Double.t }.
Record ContentPresenter : Type := { DesiredSize_Width : Double.t }.
Record Thickness : Type := { Left : Double.t; Top : Double.t; Right : Double.t; Bottom : Double.t }.

(** The host list: its items in order, each with the container the list
    has generated for it, if any. *)
Record ListView : Type := { lv_entries : list (IInspectable * Ref) }.

(** The scroll viewer with the named elements of its visual tree. *)
Record ScrollViewer : Type := { sv_visual_tree : list (string * IInspectable) }.

(** A bound items source: iterable, or some other object. *)
Inductive ItemsSource : Type :=
| Iterable (elements : list IInspectable)
| NotIterable.

Record TabView : Type := {
  m_tabContainerGrid : option unit;
  m_leftContentColumn : option ColumnDefinition;
  m_tabColumn : option ColumnDefinition;
  m_addButtonColumn : option ColumnDefinition;
  m_rightContentColumn : option ColumnDefinition;
  m_rightContentPresenter : option ContentPresenter;
  m_listView : option ListView;
  m_scrollViewer : option ScrollViewer;
  ActualWidth : Double.t;
  Padding : Thickness;
  TabWidthMode : TabViewWidthMode;
  TabItems : list IInspectable;
  TabItemsSource : option ItemsSource;
  SelectedIndex : Z;
  SelectedItem : Ref;
  ApplicationResources : list (string * Double.t);
  VisualParent : list (nat * IInspectable);
  trace : list Effect
}.

Definition with_SelectedIndex (i : Z) (tv : TabView) : TabView :=
  {| m_tabContainerGrid := m_tabContainerGrid tv;
     m_leftContentColumn := m_leftContentColumn tv;
     m_tabColumn := m_tabColumn tv;
     m_addButtonColumn := m_addButtonColumn tv;
     m_rightContentColumn := m_rightContentColumn tv;
     m_rightContentPresenter := m_rightContentPresenter tv;
     m_listView := m_listView tv;
     m_scrollViewer := m_scrollViewer tv;
     ActualWidth := ActualWidth tv;
     Padding := Padding tv;
     TabWidthMode := TabWidthMode tv;
     TabItems := TabItems tv;
     TabItemsSource := TabItemsSource tv;
     SelectedIndex := i;
     SelectedItem := SelectedItem tv;
     ApplicationResources := ApplicationResources tv;
     VisualParent := VisualParent tv;
     trace := trace tv |}.

Definition with_SelectedItem (r : Ref) (tv : TabView) : TabView :=
  {| m_tabContainerGrid := m_tabContainerGrid tv;
     m_leftContentColumn := m_leftContentColumn tv;
     m_tabColumn := m_tabColumn tv;
     m_addButtonColumn := m_addButtonColumn tv;
     m_rightContentColumn := m_rightContentColumn tv;
     m_rightContentPresenter := m_rightContentPresenter tv;
     m_listView := m_listView tv;
     m_scrollViewer := m_scrollViewer tv;
     ActualWidth := ActualWidth tv;
     Padding := Padding tv;
     TabWidthMode := TabWidthMode tv;
     TabItems := TabItems tv;
     TabItemsSource := TabItemsSource tv;
     SelectedIndex := SelectedIndex tv;
     SelectedItem := r;
     ApplicationResources := ApplicationResources tv;
     VisualParent := VisualParent tv;
     trace := trace tv |}.

(** Record one more call. *)
Definition emit (e : Effect) (tv : TabView) : TabView :=
  {| m_tabContainerGrid := m_tabContainerGrid tv;
     m_leftContentColumn := m_leftContentColumn tv;
     m_tabColumn := m_tabColumn tv;
     m_addButtonColumn := m_addButtonColumn tv;
     m_rightContentColumn := m_rightContentColumn tv;
     m_rightContentPresenter := m_rightContentPresenter tv;
     m_listView := m_listView tv;
     m_scrollViewer := m_scrollViewer tv;
     ActualWidth := ActualWidth tv;
     Padding := Padding tv;
     TabWidthMode := TabWidthMode tv;
     TabItems := TabItems tv;
     TabItemsSource := TabItemsSource tv;
     SelectedIndex := SelectedIndex tv;
     SelectedItem := SelectedItem tv;
     ApplicationResources := ApplicationResources tv;
     VisualParent := VisualParent tv;
     trace := trace tv ++ [e] |}.

(* ================================================================== *)
(** ** Handlers that can stop early *)

Inductive Failure : Type :=
| hresult_no_interface    (* [as<T>()] on an object that is not a [T] *)
| hresult_out_of_bounds   (* [GetAt] past the end *)
| null_dereference.       (* a call through a null reference *)

(** What a handler leaves behind: its result and the control, or the
    failure and the control as it was when the failure happened. *)
Inductive Outcome (A : Type) : Type :=
| Returned (a : A) (tv : TabView)
| Failed (f : Failure) (tv : TabView).
Arguments Returned {A} a tv.
Arguments Failed {A} f tv.

Definition M (A : Type) : Type := TabView -> Outcome A.

Definition ret {A} (a : A) : M A := fun tv => Returned a tv.

Definition bind {A B} (m : M A) (k : A -> M B) : M B :=
  fun tv => match m tv with
            | Returned a tv' => k a tv'
            | Failed f tv' => Failed f tv'
            end.

Definition fail {A} (f : Failure) : M A := fun tv => Failed f tv.

(** Run a step that cannot fail. *)
Definition lift (f : TabView -> TabView) : M unit := fun tv => Returned tt (f tv).

Declare Scope tabview_scope.
Delimit Scope tabview_scope with tabview.
Notation "x <- m ;; k" := (bind m (fun x => k))
  (at level 61, m at next level, right associativity) : tabview_scope.
Notation "m ;;; k" := (bind m (fun _ => k))
  (at level 61, right associativity) : tabview_scope.

(** [r.as<T>()]: null stays null, a wrong class throws. *)
Definition as_ (target : RuntimeClass) (r : Ref) : M Ref :=
  match r with
  | None => ret None
  | Some o => if implements (obj_class o) target then ret (Some o)
              else fail hresult_no_interface
  end.

Definition final_state {A} (o : Outcome A) : TabView :=
  match o with Returned _ tv => tv | Failed _ tv => tv end.

(* ================================================================== *)
(** ** The host list's lookups *)

Definition lv_Items (lv : ListView) : list IInspectable := map fst (lv_entries lv).

(** [listView.ContainerFromIndex(index)]: null outside the items and for
    an item whose container is not generated. *)
Definition lv_ContainerFromIndex (lv : ListView) (index : Z) : Ref :=
  if index <? 0 then None
  else match nth_error (lv_entries lv) (Z.to_nat index) with
       | Some (_, container) => container
       | None => None
       end.

(** [listView.ContainerFromItem(item)] *)
Definition lv_ContainerFromItem (lv : ListView) (item : Ref) : Ref :=
  match item with
  | None => None
  | Some i =>
      match find (fun e => same_object (fst e) i) (lv_entries lv) with
      | Some (_, container) => container
      | None => None
      end
  end.

Fixpoint index_of_container (c : IInspectable) (es : list (IInspectable * Ref)) (i : Z) : Z :=
  match es with
  | [] => -1
  | (_, container) :: es' =>
      if same_ref container (Some c) then i else index_of_container c es' (i + 1)
  end.

(** [listView.IndexFromContainer(container)]: -1 when the container is
    not one of this list. *)
Definition lv_IndexFromContainer (lv : ListView) (container : IInspectable) : Z :=
  index_of_container container (lv_entries lv) 0.

(** [listView.ItemFromContainer(container)] *)
Definition lv_ItemFromContainer (lv : ListView) (container : IInspectable) : Ref :=
  match find (fun e => same_ref (snd e) (Some container)) (lv_entries lv) with
  | Some (item, _) => Some item
  | None => None
  end.

(* ================================================================== *)
(** ** Selection coordinator *)

Definition ContainerFromItem (item : Ref) (tv : TabView) : Ref :=
  match m_listView tv with
  | Some listView => lv_ContainerFromItem listView item
  | None => None
  end.

Definition ContainerFromIndex (index : Z) (tv : TabView) : Ref :=
  match m_listView tv with
  | Some listView => lv_ContainerFromIndex listView index
  | None => None
  end.

Definition ItemFromContainer (container : IInspectable) (tv : TabView) : Ref :=
  match m_listView tv with
  | Some listView => lv_ItemFromContainer listView container
  | None => None
  end.

Definition UpdateSelectedItem (tv : TabView) : TabView :=
  match m_listView tv with
  | Some listView =>
      let tvi := try_as TabViewItemClass (SelectedItem tv) in
      let tvi := match tvi with
                 | Some _ => tvi
                 | None => try_as TabViewItemClass (ContainerFromItem (SelectedItem tv) tv)
                 end in
      match tvi with
      | Some tvi => emit (TabViewItem_IsSelected tvi true) (emit (ListView_SelectedItem tvi) tv)
      | None => tv
      end
  | None => tv
  end.

Definition UpdateSelectedIndex (tv : TabView) : TabView :=
  match m_listView tv with
  | Some listView => emit (ListView_SelectedIndex (SelectedIndex tv)) tv
  | None => tv
  end.

Definition OnSelectedIndexPropertyChanged (tv : TabView) : TabView := UpdateSelectedIndex tv.
Definition OnSelectedItemPropertyChanged (tv : TabView) : TabView := UpdateSelectedItem tv.

(** [SelectedIndex(value)]: the property stores the value and, when it
    differs from the one it held, runs the property-changed callback. *)
Definition set_SelectedIndex (value : Z) (tv : TabView) : TabView :=
  if value =? SelectedIndex tv then tv
  else OnSelectedIndexPropertyChanged (with_SelectedIndex value tv).

(** [SelectedItem(value)] *)
Definition set_SelectedItem (value : Ref) (tv : TabView) : TabView :=
  if same_ref value (SelectedItem tv) then tv
  else OnSelectedItemPropertyChanged (with_SelectedItem value tv).

(* ================================================================== *)
(** ** Keyboard navigation *)

Definition HasCurrent (iter : list IInspectable) : bool :=
  match iter with [] => false | _ :: _ => true end.

(** [while (iter.MoveNext()) i++;] with the iterator standing on the head
    of [iter]: [MoveNext] steps to the next element and tells whether
    there is one. *)
Fixpoint GetItemCount_loop (iter : list IInspectable) (i : Z) : Z :=
  match iter with
  | [] => i
  | _ :: iter' => if HasCurrent iter' then GetItemCount_loop iter' (Int32.add i 1) else i
  end.

Definition GetItemCount (tv : TabView) : Z :=
  match TabItemsSource tv with
  | Some itemssource =>
      match itemssource with
      | Iterable iterable => GetItemCount_loop iterable 1
      | NotIterable => 0
      end
  | None => UInt32.to_int (UInt32.of_nat (List.length (TabItems tv)))
  end.

Definition SelectNextTab (increment : Z) (tv : TabView) : bool * TabView :=
  let itemsSize := GetItemCount tv in
  if 1 <? itemsSize then
    let index := SelectedIndex tv in
    let index := Int32.rem (Int32.add (Int32.add index increment) itemsSize) itemsSize in
    (true, set_SelectedIndex index tv)
  else (false, tv).

Definition RequestCloseTab (container : IInspectable) (tv : TabView) : TabView :=
  match m_listView tv with
  | Some listView =>
      let item := lv_ItemFromContainer listView container in
      emit (TabViewItem_RaiseRequestClose container item)
        (emit (TabCloseRequested item container) tv)
  | None => tv
  end.

Definition RequestCloseCurrentTab (tv : TabView) : bool * TabView :=
  match try_as TabViewItemClass (SelectedItem tv) with
  | Some selectedTab =>
      if IsClosable selectedTab then (true, RequestCloseTab selectedTab tv)
      else (false, tv)
  | None => (false, tv)
  end.

Definition OnCtrlF4Invoked (tv : TabView) : TabView :=
  let (handled, tv') := RequestCloseCurrentTab tv in
  emit (KeyboardAccelerator_Handled handled) tv'.

Definition OnCtrlTabInvoked (tv : TabView) : TabView :=
  let (handled, tv') := SelectNextTab 1 tv in
  emit (KeyboardAccelerator_Handled handled) tv'.

Definition OnCtrlShiftTabInvoked (tv : TabView) : TabView :=
  let (handled, tv') := SelectNextTab (-1) tv in
  emit (KeyboardAccelerator_Handled handled) tv'.

(* ================================================================== *)
(** ** Directional focus navigation between tabs *)

Record GettingFocusEventArgs : Type := {
  Direction : FocusNavigationDirection;
  OldFocusedElement : Ref;
  NewFocusedElement : Ref;
  InputDevice : FocusInputDeviceKind;
  (** [args.try_as<IGettingFocusEventArgs2>()] succeeds *)
  is_IGettingFocusEventArgs2 : bool
}.

Definition is_GameController (d : FocusInputDeviceKind) : bool :=
  match d with Device_GameController => true | _ => false end.

Definition is_Up_or_Down (d : FocusNavigationDirection) : bool :=
  match d with Direction_Up | Direction_Down => true | _ => false end.

(** [next] is the element [FocusManager::FindNextElement] answers for the
    direction and the list's bounds as exclusion rectangle. *)
Definition OnListViewGettingFocus (args : GettingFocusEventArgs) (next : Ref)
    (tv : TabView) : TabView :=
  let direction := Direction args in
  if is_Up_or_Down direction then
    let oldItem := try_as TabViewItemClass (OldFocusedElement args) in
    let newItem := try_as TabViewItemClass (NewFocusedElement args) in
    match oldItem, newItem with
    | Some oldItem, Some newItem =>
        match m_listView tv with
        | Some listView =>
            let oldItemIsFromThisTabView := negb (lv_IndexFromContainer listView oldItem =? -1) in
            let newItemIsFromThisTabView := negb (lv_IndexFromContainer listView newItem =? -1) in
            if oldItemIsFromThisTabView && newItemIsFromThisTabView then
              let inputDevice := InputDevice args in
              if is_GameController inputDevice then
                let tv := if is_IGettingFocusEventArgs2 args
                          then emit (GettingFocus_TrySetNewFocusedElement next) tv
                          else emit (Dispatcher_RunAsync_SetFocus next) tv in
                emit (GettingFocus_Handled true) tv
              else
                emit (GettingFocus_Handled true) (emit (GettingFocus_Cancel true) tv)
            else tv
        | None => tv
        end
    | _, _ => tv
    end
  else tv.

(* ================================================================== *)
(** ** Drag relay *)

Record DragItemsCompletedEventArgs : Type := {
  Items : list IInspectable;
  DropResult : DataPackageOperation
}.

(** [VisualTreeHelper::GetParent(fe)] *)
Definition GetParent (fe : IInspectable) (tv : TabView) : Ref :=
  match find (fun kv => Nat.eqb (fst kv) (obj_id fe)) (VisualParent tv) with
  | Some (_, parent) => Some parent
  | None => None
  end.

(** [v.GetAt(index)] *)
Definition GetAt (v : list IInspectable) (index : Z) : M IInspectable :=
  if index <? 0 then fail hresult_out_of_bounds
  else match nth_error v (Z.to_nat index) with
       | Some x => ret x
       | None => fail hresult_out_of_bounds
       end.

Definition numItems_of (tv : TabView) : Z :=
  UInt32.to_int (UInt32.of_nat (List.length (TabItems tv))).

(** [tabItem.Content() == item] *)
Definition Content_is (tabItem item : IInspectable) : bool :=
  match Content tabItem with
  | Some c => Nat.eqb c (obj_id item)
  | None => false
  end.

(** The fallback scan [for (int i = 0; i < numItems; i++)], with [count]
    iterations left.  [tabItem] is used without a test for null. *)
Fixpoint FindTabViewItemFromDragItem_scan (count : nat) (i : Z) (item : IInspectable) : M Ref :=
  match count with
  | O => ret None
  | S count' =>
      fun tv =>
        match try_as TabViewItemClass (ContainerFromIndex i tv) with
        | None => Failed null_dereference tv
        | Some tabItem =>
            if Content_is tabItem item then Returned (Some tabItem) tv
            else FindTabViewItemFromDragItem_scan count' (Int32.add i 1) item tv
        end
  end.

Definition FindTabViewItemFromDragItem (item : IInspectable) : M Ref :=
  fun tv =>
    let tab := try_as TabViewItemClass (ContainerFromItem (Some item) tv) in
    let tab := match tab with
               | Some _ => tab
               | None =>
                   match try_as FrameworkElementClass (Some item) with
                   | Some fe => try_as TabViewItemClass (GetParent fe tv)
                   | None => None
                   end
               end in
    match tab with
    | Some _ => Returned tab tv
    | None =>
        let numItems := numItems_of tv in
        FindTabViewItemFromDragItem_scan (Z.to_nat numItems) 0 item tv
    end.

Definition OnListViewDragItemsCompleted (args : DragItemsCompletedEventArgs) : M unit :=
  (item <- GetAt (Items args) 0 ;;
   tab <- FindTabViewItemFromDragItem item ;;
   lift (emit (TabDragCompleted item tab)) ;;;
   if DropResult args =? DataPackageOperation_None
   then lift (emit (TabDroppedOutside item tab))
   else ret tt)%tabview.

(* ================================================================== *)
(** ** Width layout *)

(** [SharedHelpers::FindResource(name, resources, default)] *)
Definition FindResource (name : string) (resources : list (string * Double.t))
    (default : Double.t) : Double.t :=
  match find (fun kv => String.eqb (fst kv) name) resources with
  | Some (_, value) => value
  | None => default
  end.

Definition minTabWidth (tv : TabView) : Double.t :=
  FindResource c_tabViewItemMinWidthName (ApplicationResources tv) c_tabMinimumWidth.

Definition maxTabWidth (tv : TabView) : Double.t :=
  FindResource c_tabViewItemMaxWidthName (ApplicationResources tv) c_tabMaximumWidth.

(** The width taken by custom content and the add button. *)
Definition widthTaken (tv : TabView) : Double.t :=
  let widthTaken := Double.zero in
  let widthTaken := match m_leftContentColumn tv with
                    | Some leftContentColumn => Double.add widthTaken (column_ActualWidth leftContentColumn)
                    | None => widthTaken
                    end in
  let widthTaken := match m_addButtonColumn tv with
                    | Some addButtonColumn => Double.add widthTaken (column_ActualWidth addButtonColumn)
                    | None => widthTaken
                    end in
  match m_rightContentColumn tv, m_rightContentPresenter tv with
  | Some _, Some rightContentPresenter => Double.add widthTaken (DesiredSize_Width rightContentPresenter)
  | _, _ => widthTaken
  end.

Definition availableWidth (tv : TabView) : Double.t :=
  Double.sub (ActualWidth tv) (widthTaken tv).

(** [(double)(TabItems().Size())] *)
Definition TabItems_Size (tv : TabView) : Double.t :=
  Double.of_Z (UInt32.of_nat (List.length (TabItems tv))).

Definition tabWidthForScroller (tv : TabView) : Double.t :=
  let padding := Padding tv in
  Double.div (Double.sub (availableWidth tv) (Double.add (Left padding) (Right padding)))
             (TabItems_Size tv).

Definition set_ScrollBarVisibility (v : ScrollBarVisibility) (tv : TabView) : TabView :=
  match m_listView tv with
  | Some listview => emit (ListView_HorizontalScrollBarVisibility v) tv
  | None => tv
  end.

(** [rightContentColumn.MinWidth(rightContentSize.Width)], made while the
    width taken is added up. *)
Definition set_rightContentColumn_MinWidth (tv : TabView) : TabView :=
  match m_rightContentColumn tv, m_rightContentPresenter tv with
  | Some _, Some rightContentPresenter =>
      emit (RightContentColumn_MinWidth (DesiredSize_Width rightContentPresenter)) tv
  | _, _ => tv
  end.

(** The first part of [UpdateTabWidths]: sizes the tab column and gives
    the width every tab receives. *)
Definition UpdateTabWidths_column (tv : TabView) : Double.t * TabView :=
  let tabWidth := Double.quiet_NaN in
  match m_tabContainerGrid tv with
  | Some tabGrid =>
      let tv1 := set_rightContentColumn_MinWidth tv in
      match m_tabColumn tv with
      | Some tabColumn =>
          let availableWidth := availableWidth tv in
          match TabWidthMode tv with
          | SizeToContent =>
              let tv2 := emit (TabColumn_MaxWidth availableWidth) tv1 in
              let tv3 := emit (TabColumn_Width (GridLength_Auto (Double.of_Z 1))) tv2 in
              let tv4 := match m_listView tv with
                         | Some listview =>
                             emit (ListView_HorizontalScrollBarVisibility ScrollBar_Auto)
                               (emit (ListView_MaxWidth availableWidth) tv3)
                         | None => tv3
                         end in
              (tabWidth, tv4)
          | Equal =>
              let tabWidth := Double.clamp (tabWidthForScroller tv) (minTabWidth tv) (maxTabWidth tv) in
              let tv2 := emit (TabColumn_MaxWidth availableWidth) tv1 in
              let requiredWidth := Double.mul tabWidth (TabItems_Size tv) in
              if Double.geb requiredWidth availableWidth then
                (tabWidth,
                 set_ScrollBarVisibility ScrollBar_Visible
                   (emit (TabColumn_Width (GridLength_Pixel availableWidth)) tv2))
              else
                (tabWidth,
                 set_ScrollBarVisibility ScrollBar_Hidden
                   (emit (TabColumn_Width (GridLength_Auto (Double.of_Z 1))) tv2))
          end
      | None => (tabWidth, tv1)
      end
  | None => (tabWidth, tv)
  end.

(** [for (auto item : TabItems())]: set the calculated width on each tab. *)
Fixpoint UpdateTabWidths_items (items : list IInspectable) (tabWidth : Double.t) : M unit :=
  match items with
  | [] => ret tt
  | item :: items' =>
      (tvi <- (fun tv =>
                 match try_as TabViewItemClass (Some item) with
                 | Some tvi => Returned (Some tvi) tv
                 | None => as_ TabViewItemClass (ContainerFromItem (Some item) tv) tv
                 end) ;;
       match tvi with
       | Some tvi => lift (emit (TabViewItem_Width tvi tabWidth))
       | None => ret tt
       end ;;;
       UpdateTabWidths_items items' tabWidth)%tabview
  end.

Definition UpdateTabWidths : M unit :=
  fun tv =>
    let (tabWidth, tv') := UpdateTabWidths_column tv in
    UpdateTabWidths_items (TabItems tv') tabWidth tv'.

Definition OnTabWidthModePropertyChanged : M unit := UpdateTabWidths.
Definition OnSizeChanged : M unit := UpdateTabWidths.

(* ================================================================== *)
(** ** Scroll buttons *)

(** [SharedHelpers::FindInVisualTreeByName(scrollViewer, name)] *)
Definition FindInVisualTreeByName (scrollViewer : ScrollViewer) (name : string) : Ref :=
  match find (fun kv => String.eqb (fst kv) name) (sv_visual_tree scrollViewer) with
  | Some (_, element) => Some element
  | None => None
  end.

(** [button.Click(winrt::auto_revoke, handler)] *)
Definition Click (button : Ref) (handler : ClickHandler) : M unit :=
  match button with
  | Some b => lift (emit (Button_Click b handler))
  | None => fail null_dereference
  end.

(** The body of [if (auto&& scrollViewer = m_scrollViewer.get())]. *)
Definition OnScrollViewerLoaded_buttons : M unit :=
  fun tv =>
    match m_scrollViewer tv with
    | Some scrollViewer =>
        (decreaseButton <- as_ RepeatButtonClass
                             (FindInVisualTreeByName scrollViewer "ScrollDecreaseButton") ;;
         Click decreaseButton OnScrollDecreaseClick_handler ;;;
         increaseButton <- as_ RepeatButtonClass
                             (FindInVisualTreeByName scrollViewer "ScrollIncreaseButton") ;;
         Click increaseButton OnScrollIncreaseClick_handler)%tabview tv
    | None => Returned tt tv
    end.

Definition OnScrollViewerLoaded : M unit :=
  (OnScrollViewerLoaded_buttons ;;; UpdateTabWidths)%tabview.

(* ================================================================== *)
(** ** Reselection after a removal *)

Record IVectorChangedEventArgs : Type := {
  get_CollectionChange : CollectionChange;
  Index : Z   (* uint32_t *)
}.

Definition is_ItemRemoved (c : CollectionChange) : bool :=
  match c with ItemRemoved => true | _ => false end.

(** [nextItem && nextItem.IsEnabled() && nextItem.Visibility() == Visible] *)
Definition selectable (nextItem : Ref) : bool :=
  match nextItem with
  | Some nextItem => IsEnabled nextItem && is_visible (get_Visibility nextItem)
  | None => false
  end.

(** The [do ... while (index != startIndex)] loop.  [None] stands for a
    run that needs more than [fuel] iterations. *)
Fixpoint OnItemsChanged_loop (fuel : nat) (numItems startIndex index : Z) (tv : TabView)
    : option (Outcome unit) :=
  match fuel with
  | O => None
  | S fuel' =>
      match as_ ListViewItemClass (ContainerFromIndex index tv) tv with
      | Failed f tv' => Some (Failed f tv')
      | Returned nextItem tv' =>
          if selectable nextItem then
            match GetAt (TabItems tv') index tv' with
            | Returned item tv'' => Some (Returned tt (set_SelectedItem (Some item) tv''))
            | Failed f tv'' => Some (Failed f tv'')
            end
          else
            let index := Int32.add index 1 in
            let index := if numItems <=? index then 0 else index in
            if index =? startIndex then Some (Returned tt tv')
            else OnItemsChanged_loop fuel' numItems startIndex index tv'
      end
  end.

(** The body of [if (auto args = item.as<IVectorChangedEventArgs>())]. *)
Definition OnItemsChanged_reselect (fuel : nat) (args : IVectorChangedEventArgs) (tv : TabView)
    : option (Outcome unit) :=
  let numItems := numItems_of tv in
  if is_ItemRemoved (get_CollectionChange args) && (0 <? numItems) then
    let selectedIndex := SelectedIndex tv in
    if (selectedIndex =? -1) || (selectedIndex =? UInt32.to_int (Index args)) then
      let startIndex := UInt32.to_int (Index args) in
      let startIndex := if numItems <=? startIndex then numItems - 1 else startIndex in
      let index := startIndex in
      OnItemsChanged_loop fuel numItems startIndex index tv
    else Some (Returned tt tv)
  else Some (Returned tt tv).

Definition OnItemsChanged_fuel (fuel : nat) (item : option IVectorChangedEventArgs) (tv : TabView)
    : option (Outcome unit) :=
  match match item with
        | Some args => OnItemsChanged_reselect fuel args tv
        | None => Some (Returned tt tv)
        end with
  | Some (Returned _ tv') => Some (UpdateTabWidths tv')
  | Some (Failed f tv') => Some (Failed f tv')
  | None => None
  end.

(** One pass over the tabs is all the loop can make. *)
Definition OnItemsChanged (item : option IVectorChangedEventArgs) (tv : TabView)
    : option (Outcome unit) :=
  OnItemsChanged_fuel (List.length (TabItems tv)) item tv.

(* ================================================================== *)
(** ** Concrete controls *)

(** A tab header that is enabled, visible and closable. *)
Definition tab_item (id : nat) : IInspectable :=
  {| obj_id := id; obj_class := TabViewItemClass; IsEnabled := true;
     get_Visibility := Visible; IsClosable := true; Content := None |}.

(** A plain data object. *)
Definition data_item (id : nat) : IInspectable :=
  {| obj_id := id; obj_class := InspectableClass; IsEnabled := false;
     get_Visibility := Collapsed; IsClosable := false; Content := None |}.

Definition no_padding : Thickness :=
  {| Left := Double.zero; Top := Double.zero; Right := Double.zero; Bottom := Double.zero |}.

(** A host list of tab headers that are their own containers. *)
Definition list_of_tabs (tabs : list IInspectable) : ListView :=
  {| lv_entries := map (fun t => (t, Some t)) tabs |}.

(** A control 300 wide in [Equal] mode over the given tabs, with the tab
    strip parts of its template and nothing selected. *)
Definition control_of (tabs : list IInspectable) (listView : option ListView) : TabView :=
  {| m_tabContainerGrid := Some tt;
     m_leftContentColumn := None;
     m_tabColumn := Some {| column_ActualWidth := Double.zero |};
     m_addButtonColumn := None;
     m_rightContentColumn := None;
     m_rightContentPresenter := None;
     m_listView := listView;
     m_scrollViewer := None;
     ActualWidth := Double.of_Z 300;
     Padding := no_padding;
     TabWidthMode := Equal;
     TabItems := tabs;
     TabItemsSource := None;
     SelectedIndex := -1;
     SelectedItem := None;
     ApplicationResources := [];
     VisualParent := [];
     trace := [] |}.

Definition three_tabs : list IInspectable := [tab_item 1; tab_item 2; tab_item 3].

Definition three_tab_view : TabView := control_of three_tabs (Some (list_of_tabs three_tabs)).

(** A control whose scroll viewer has been re-templated without the
    scroll buttons. *)
Definition view_without_scroll_buttons : TabView :=
  {| m_tabContainerGrid := Some tt;
     m_leftContentColumn := None;
     m_tabColumn := Some {| column_ActualWidth := Double.zero |};
     m_addButtonColumn := None;
     m_rightContentColumn := None;
     m_rightContentPresenter := None;
     m_listView := Some (list_of_tabs three_tabs);
     m_scrollViewer := Some {| sv_visual_tree := [] |};
     ActualWidth := Double.of_Z 300;
     Padding := no_padding;
     TabWidthMode := Equal;
     TabItems := three_tabs;
     TabItemsSource := None;
     SelectedIndex := -1;
     SelectedItem := None;
     ApplicationResources := [];
     VisualParent := [];
     trace := [] |}.

(** A control over two data objects; the host list has generated the
    container of the second only. *)
Definition view_with_ungenerated_container : TabView :=
  control_of [data_item 1; data_item 2]
    (Some {| lv_entries := [(data_item 1, None); (data_item 2, Some (tab_item 12))] |}).

(** Two tabs are left and the selection still points at index 2, the tab
    that was removed. *)
Definition view_after_removing_last : TabView :=
  with_SelectedIndex 2
    (control_of [tab_item 1; tab_item 2] (Some (list_of_tabs [tab_item 1; tab_item 2]))).

(* ================================================================== *)
(** ** Reading the effect trace *)

Definition count_events (p : Effect -> bool) (events : list Effect) : nat :=
  List.length (filter p events).


Definition is_TabDragCompleted (e : Effect) : bool :=
  match e with TabDragCompleted _ _ => true | _ => false end.

Definition is_TabDroppedOutside (e : Effect) : bool :=
  match e with TabDroppedOutside _ _ => true | _ => false end.

(** [item] is one of [items], by identity. *)
Definition contains (items : list IInspectable) (item : IInspectable) : bool :=
  existsb (same_object item) items.

(** Every item the host list holds is an item of the tab collection: so
    it is before the list takes the collection over (it is empty), and
    after (they are one sequence). *)
Definition host_items_in_TabItems (tv : TabView) : Prop :=
  forall listView x,
    m_listView tv = Some listView -> In x (lv_Items listView) -> contains (TabItems tv) x = true.

(* ================================================================== *)
(** ** Vocabulary of the statements *)

(** The tab at [index] can take the selection: its container is
    generated, enabled and visible. *)
Definition tab_selectable (tv : TabView) (index : Z) : bool :=
  selectable (ContainerFromIndex index tv).

(** Every container the host list has generated is a tab header. *)
Definition containers_are_tabs (tv : TabView) : Prop :=
  forall listView item container,
    m_listView tv = Some listView ->
    In (item, Some container) (lv_entries listView) ->
    obj_class container = TabViewItemClass.

(** The first offset at or after [k], among [count] of them, at which the
    tab [(start + offset) mod n] can take the selection. *)
Fixpoint first_selectable_offset (tv : TabView) (n start : Z) (count : nat) (k : Z) : option Z :=
  match count with
  | O => None
  | S count' =>
      if tab_selectable tv ((start + k) mod n) then Some k
      else first_selectable_offset tv n start count' (k + 1)
  end.

(** The indices [0, 1, ..., n - 1]. *)
Definition indices (n : nat) : list Z := map Z.of_nat (seq 0 n).

(** Specified (C2): the nearest tab that is enabled and visible at or
    after the removed index, wrapping to 0: the first such tab among the
    indices from [removed] up, then among those below it. *)
Definition spec_nearest_at_or_after (tv : TabView) (removed : Z) : Ref :=
  let n := List.length (TabItems tv) in
  let order := filter (fun i => removed <=? i) (indices n)
               ++ filter (fun i => i <? removed) (indices n) in
  match find (tab_selectable tv) order with
  | Some index => nth_error (TabItems tv) (Z.to_nat index)
  | None => None
  end.

(** What differs between two states of the control that differ by calls
    on collaborators only. *)
Definition same_properties (tv tv' : TabView) : Prop :=
  m_listView tv' = m_listView tv /\
  TabItems tv' = TabItems tv /\
  SelectedItem tv' = SelectedItem tv /\
  SelectedIndex tv' = SelectedIndex tv.

(* ================================================================== *)
(** ** The other handlers *)

Definition c_scrollAmount : Double.t := Eval vm_compute in Double.of_Z 50.

(** [std::max(a, b)] is [(a < b) ? b : a] and [std::min(a, b)] is
    [(b < a) ? b : a]. *)
Definition std_max (a b : Double.t) : Double.t := if Double.ltb a b then b else a.
Definition std_min (a b : Double.t) : Double.t := if Double.ltb b a then b else a.

(** Calls of the handlers below on collaborators that the handlers above
    do not reach.  A tab reference in [TabContentPresenter_ContentTemplate]
    and [TabContentPresenter_ContentTemplateSelector] stands for that
    tab's template and selector, null for [nullptr]. *)
Inductive Call : Type :=
| ScrollViewer_ChangeView (horizontalOffset : Double.t)
| TabContentPresenter_Content (content : option nat)
| TabContentPresenter_ContentTemplate (of_tab : Ref)
| TabContentPresenter_ContentTemplateSelector (of_tab : Ref)
| TabContentPresenter_UpdateLayout
| SetFocus (element : IInspectable)
| SelectionChanged_raised.

(** What the scroll handlers read from the scroll viewer. *)
Record ScrollMetrics : Type := {
  HorizontalOffset : Double.t;
  ScrollableWidth : Double.t
}.

Definition OnScrollDecreaseClick (scroll : ScrollMetrics) (tv : TabView) : list Call :=
  match m_scrollViewer tv with
  | Some scrollViewer =>
      [ScrollViewer_ChangeView
         (std_max Double.zero (Double.sub (HorizontalOffset scroll) c_scrollAmount))]
  | None => []
  end.

Definition OnScrollIncreaseClick (scroll : ScrollMetrics) (tv : TabView) : list Call :=
  match m_scrollViewer tv with
  | Some scrollViewer =>
      [ScrollViewer_ChangeView
         (std_min (ScrollableWidth scroll) (Double.add (HorizontalOffset scroll) c_scrollAmount))]
  | None => []
  end.

(** The content presenter part, and what the framework answers while the
    content is swapped: whether the presenter raised [LosingFocus], and
    the first focusable element of the new content after the layout. *)
Record ContentEnvironment : Type := {
  m_tabContentPresenter : option unit;
  LosingFocus_raised : bool;
  FindFirstFocusableElement : Ref
}.

Definition UpdateTabContent (env : ContentEnvironment) (tv : TabView) : list Call :=
  match m_tabContentPresenter env with
  | Some tabContentPresenter =>
      match SelectedItem tv with
      | None =>
          [TabContentPresenter_Content None;
           TabContentPresenter_ContentTemplate None;
           TabContentPresenter_ContentTemplateSelector None]
      | Some _ =>
          let tvi := try_as TabViewItemClass (SelectedItem tv) in
          let tvi := match tvi with
                     | Some _ => tvi
                     | None => try_as TabViewItemClass (ContainerFromItem (SelectedItem tv) tv)
                     end in
          match tvi with
          | Some tvi =>
              let shouldMoveFocusToNewTab := LosingFocus_raised env in
              [TabContentPresenter_Content (Content tvi);
               TabContentPresenter_ContentTemplate (Some tvi);
               TabContentPresenter_ContentTemplateSelector (Some tvi);
               TabContentPresenter_UpdateLayout]
              ++ (if shouldMoveFocusToNewTab then
                    let focusable := match FindFirstFocusableElement env with
                                     | Some focusable => focusable
                                     | None => tvi
                                     end in
                    [SetFocus focusable]
                  else [])
          | None => []
          end
      end
  | None => []
  end.

(** The selection the host list reports. *)
Record ListViewSelection : Type := {
  lv_SelectedIndex : Z;
  lv_SelectedItem : Ref
}.

Definition OnListViewSelectionChanged (selection : ListViewSelection)
    (env : ContentEnvironment) (tv : TabView) : TabView * list Call :=
  let tv1 := match m_listView tv with
             | Some listView =>
                 set_SelectedItem (lv_SelectedItem selection)
                   (set_SelectedIndex (lv_SelectedIndex selection) tv)
             | None => tv
             end in
  (tv1, UpdateTabContent env tv1 ++ [SelectionChanged_raised]).

Record DragItemsStartingEventArgs : Type := { Starting_Items : list IInspectable }.

Definition OnListViewDragItemsStarting (args : DragItemsStartingEventArgs) : M unit :=
  (item <- GetAt (Starting_Items args) 0 ;;
   tab <- FindTabViewItemFromDragItem item ;;
   lift (emit (TabDragStarting item tab)))%tabview.

(** *** Keys *)

Inductive VirtualKey : Type := Key_F4 | Key_Tab | Key_other.

Inductive KeyboardAccelerator : Type :=
| ctrlf4Accel        (* F4, Control: [OnCtrlF4Invoked] *)
| ctrlTabAccel       (* Tab, Control: [OnCtrlTabInvoked] *)
| ctrlShiftTabAccel. (* Tab, Control | Shift: [OnCtrlShiftTabInvoked] *)

(** The platform the control runs on. *)
Record Platform : Type := {
  IsRS3OrHigher : bool;
  Is19H1OrHigher : bool
}.

(** The accelerators the constructor appends to [KeyboardAccelerators()]. *)
Definition constructor_KeyboardAccelerators (platform : Platform) : list KeyboardAccelerator :=
  (if IsRS3OrHigher platform then [ctrlf4Accel] else [])
  ++ (if Is19H1OrHigher platform then [ctrlTabAccel; ctrlShiftTabAccel] else []).

Record KeyRoutedEventArgs : Type := {
  Key : VirtualKey;
  (** [CoreWindow::GetForCurrentThread()] is not null *)
  has_coreWindow : bool;
  (** the [Down] state of the Control and Shift keys *)
  isCtrlDown : bool;
  isShiftDown : bool
}.

(** The result holds the value given to [args.Handled], if it is called. *)
Definition OnKeyDown (platform : Platform) (args : KeyRoutedEventArgs) (tv : TabView)
    : option bool * TabView :=
  if has_coreWindow args then
    match Key args with
    | Key_F4 =>
        if negb (IsRS3OrHigher platform) then
          if isCtrlDown args then
            let (handled, tv') := RequestCloseCurrentTab tv in (Some handled, tv')
          else (None, tv)
        else (None, tv)
    | Key_Tab =>
        if negb (Is19H1OrHigher platform) then
          if isCtrlDown args && negb (isShiftDown args) then
            let (handled, tv') := SelectNextTab 1 tv in (Some handled, tv')
          else if isCtrlDown args && isShiftDown args then
            let (handled, tv') := SelectNextTab (-1) tv in (Some handled, tv')
          else (None, tv)
        else (None, tv)
    | Key_other => (None, tv)
    end
  else (None, tv).

(** *** Vocabulary of the further statements *)

(** The tab an item stands for in [UpdateTabWidths]: the item itself when
    it is a tab header, else its container. *)
Definition resolve_tab (tv : TabView) (item : IInspectable) : Ref :=
  match try_as TabViewItemClass (Some item) with
  | Some tvi => Some tvi
  | None => ContainerFromItem (Some item) tv
  end.

Definition resolved_tabs (tv : TabView) (items : list IInspectable) : list IInspectable :=
  flat_map (fun item => match resolve_tab tv item with
                        | Some tvi => [tvi]
                        | None => []
                        end) items.

(** The container of every tab is generated. *)
Definition containers_generated (tv : TabView) : Prop :=
  forall index, 0 <= index < Z.of_nat (List.length (TabItems tv)) ->
                ContainerFromIndex index tv <> None.

(** [n] presses of Ctrl+Tab, of Ctrl+Shift+Tab. *)
Definition press_CtrlTab (n : nat) (tv : TabView) : TabView :=
  Nat.iter n (fun tv => snd (SelectNextTab 1 tv)) tv.

Definition press_CtrlShiftTab (n : nat) (tv : TabView) : TabView :=
  Nat.iter n (fun tv => snd (SelectNextTab (-1) tv)) tv.

(** A scroll viewer with both scroll buttons. *)
Definition scroll_button (id : nat) : IInspectable :=
  {| obj_id := id; obj_class := RepeatButtonClass; IsEnabled := true;
     get_Visibility := Visible; IsClosable := false; Content := None |}.

Definition view_with_scroll_buttons : TabView :=
  {| m_tabContainerGrid := None;
     m_leftContentColumn := None;
     m_tabColumn := None;
     m_addButtonColumn := None;
     m_rightContentColumn := None;
     m_rightContentPresenter := None;
     m_listView := Some (list_of_tabs three_tabs);
     m_scrollViewer :=
       Some {| sv_visual_tree := [("ScrollDecreaseButton"%string, scroll_button 21);
                                  ("ScrollIncreaseButton"%string, scroll_button 22)] |};
     ActualWidth := Double.of_Z 300;
     Padding := no_padding;
     TabWidthMode := SizeToContent;
     TabItems := three_tabs;
     TabItemsSource := None;
     SelectedIndex := -1;
     SelectedItem := None;
     ApplicationResources := [];
     VisualParent := [];
     trace := [] |}.

(** A plain list view item, the container the host list makes for a data
    object. *)
Definition list_item (id : nat) : IInspectable :=
  {| obj_id := id; obj_class := ListViewItemClass; IsEnabled := true;
     get_Visibility := Visible; IsClosable := false; Content := None |}.

(** A tab header that shows the object [content]. *)
Definition tab_with_content (id content : nat) : IInspectable :=
  {| obj_id := id; obj_class := TabViewItemClass; IsEnabled := true;
     get_Visibility := Visible; IsClosable := true; Content := Some content |}.

(** A control in [Equal] mode whose template has no tab column. *)
Definition view_without_tab_column : TabView :=
  {| m_tabContainerGrid := Some tt;
     m_leftContentColumn := None;
     m_tabColumn := None;
     m_addButtonColumn := None;
     m_rightContentColumn := None;
     m_rightContentPresenter := None;
     m_listView := Some (list_of_tabs three_tabs);
     m_scrollViewer := None;
     ActualWidth := Double.of_Z 300;
     Padding := no_padding;
     TabWidthMode := Equal;
     TabItems := three_tabs;
     TabItemsSource := None;
     SelectedIndex := -1;
     SelectedItem := None;
     ApplicationResources := [];
     VisualParent := [];
     trace := [] |}.

(* ================================================================== *)
(** * Properties *)

(** ** Integers *)

Lemma Int32_wrap_in_range z : Int32.in_range z -> Int32.wrap z = z.
Proof.
  unfold Int32.in_range, Int32.wrap, Int32.min_signed, Int32.max_signed,
    Int32.half_modulus, Int32.modulus.
  intros H. rewrite Z.mod_small; lia.
Qed.

Lemma Int32_add_in_range a b : Int32.in_range (a + b) -> Int32.add a b = a + b.
Proof. apply Int32_wrap_in_range. Qed.

Lemma Int32_max_signed_eq : Int32.max_signed = 2147483647.
Proof. reflexivity. Qed.

Lemma Int32_min_signed_eq : Int32.min_signed = -2147483648.
Proof. reflexivity. Qed.

Lemma UInt32_to_int_of_nat n :
  Z.of_nat n <= Int32.max_signed -> UInt32.to_int (UInt32.of_nat n) = Z.of_nat n.
Proof.
  rewrite Int32_max_signed_eq. intros H.
  unfold UInt32.to_int, UInt32.of_nat, UInt32.modulus.
  rewrite Z.mod_small by lia.
  apply Int32_wrap_in_range. unfold Int32.in_range.
  rewrite Int32_max_signed_eq, Int32_min_signed_eq. lia.
Qed.

(** The remainder of a sum that has gone once around. *)
Lemma rem_plus_modulus a n : 0 <= a -> 0 < n -> Z.rem (a + n) n = a mod n.
Proof.
  intros Ha Hn. rewrite Z.rem_mod_nonneg by lia.
  replace (a + n) with (a + 1 * n) by lia. apply Z.mod_add. lia.
Qed.

Ltac int32 :=
  unfold Int32.in_range; rewrite ?Int32_max_signed_eq, ?Int32_min_signed_eq in *; lia.

(** ** The selection properties under the setters *)

Lemma SelectedIndex_emit e tv : SelectedIndex (emit e tv) = SelectedIndex tv.
Proof. reflexivity. Qed.

Lemma SelectedIndex_set_SelectedIndex i tv : SelectedIndex (set_SelectedIndex i tv) = i.
Proof.
  unfold set_SelectedIndex. destruct (Z.eqb_spec i (SelectedIndex tv)) as [E | E].
  - now symmetry.
  - unfold OnSelectedIndexPropertyChanged, UpdateSelectedIndex. simpl.
    destruct (m_listView tv); reflexivity.
Qed.

Lemma GetItemCount_set_SelectedIndex i tv :
  GetItemCount (set_SelectedIndex i tv) = GetItemCount tv.
Proof.
  unfold set_SelectedIndex. destruct (i =? SelectedIndex tv); [reflexivity |].
  unfold OnSelectedIndexPropertyChanged, UpdateSelectedIndex. simpl.
  destruct (m_listView tv); reflexivity.
Qed.

(** What [SelectNextTab] assigns when the sum does not overflow. *)
Lemma SelectNextTab_handled increment tv :
  1 < GetItemCount tv ->
  Int32.in_range (SelectedIndex tv + increment) ->
  Int32.in_range (SelectedIndex tv + increment + GetItemCount tv) ->
  SelectNextTab increment tv =
    (true, set_SelectedIndex
             (Z.rem (SelectedIndex tv + increment + GetItemCount tv) (GetItemCount tv)) tv).
Proof.
  intros Hn H1 H2. unfold SelectNextTab.
  destruct (Z.ltb_spec 1 (GetItemCount tv)); [| lia].
  unfold Int32.rem. rewrite (Int32_add_in_range _ _ H1), (Int32_add_in_range _ _ H2).
  reflexivity.
Qed.

Lemma SelectNextTab_unhandled increment tv :
  GetItemCount tv <= 1 -> SelectNextTab increment tv = (false, tv).
Proof.
  intros Hn. unfold SelectNextTab.
  destruct (Z.ltb_spec 1 (GetItemCount tv)); [lia | reflexivity].
Qed.

Lemma GetItemCount_loop_short iter i :
  (List.length iter <= 1)%nat -> GetItemCount_loop iter i = i.
Proof.
  destruct iter as [| x [| y iter]]; simpl; intros H; try reflexivity. lia.
Qed.

(** For a source that holds elements the traversal counts them. *)
Lemma GetItemCount_loop_count iter i :
  iter <> [] ->
  Int32.in_range i -> Int32.in_range (i + Z.of_nat (List.length iter)) ->
  GetItemCount_loop iter i = i + Z.of_nat (List.length iter) - 1.
Proof.
  revert i. induction iter as [| x iter IH]; intros i Hne Hi Hr; [congruence |].
  destruct iter as [| y iter].
  - simpl. lia.
  - change (GetItemCount_loop (x :: y :: iter) i)
      with (GetItemCount_loop (y :: iter) (Int32.add i 1)).
    change (List.length (x :: y :: iter)) with (S (List.length (y :: iter))) in *.
    assert (Hl : 0 < Z.of_nat (List.length (y :: iter))) by (simpl; lia).
    rewrite Int32_add_in_range by (unfold Int32.in_range in *; lia).
    rewrite IH; [lia | congruence | unfold Int32.in_range in *; lia
                | unfold Int32.in_range in *; lia].
Qed.

(** The count of a bound source: the traversal starts at 1 and adds one
    for each element after the first, so a source that holds elements is
    counted right and an empty source counts as 1. *)
Lemma GetItemCount_items_source tv elements :
  TabItemsSource tv = Some (Iterable elements) ->
  Z.of_nat (List.length elements) < Int32.max_signed ->
  GetItemCount tv = match elements with
                    | [] => 1
                    | _ :: _ => Z.of_nat (List.length elements)
                    end.
Proof.
  intros E Hmax. unfold GetItemCount. rewrite E.
  destruct elements as [| x elements]; [reflexivity |].
  rewrite GetItemCount_loop_count; [lia | discriminate | int32 | int32].
Qed.

(* ================================================================== *)
(** ** Ctrl+Tab and Ctrl+Shift+Tab *)

(** C3, as stated, fails: with nothing selected ([SelectedIndex] is -1)
    and three tabs, one step forward selects tab 0 and the step back then
    selects tab 2, not -1. *)
Lemma SelectNextTab_forward_backward_from_unset :
  ~ (forall tv : TabView,
        1 < GetItemCount tv ->
        SelectedIndex (snd (SelectNextTab (-1) (snd (SelectNextTab 1 tv)))) = SelectedIndex tv).
Proof.
  intros H. specialize (H three_tab_view).
  assert (Hn : 1 < GetItemCount three_tab_view) by (vm_compute; reflexivity).
  specialize (H Hn). vm_compute in H. discriminate H.
Qed.

(** C3 (amended): for every tab count above 1 and every starting selected
    index that is the index of a tab, [SelectNextTab(1)] followed by
    [SelectNextTab(-1)] are both handled and restore the selected index;
    the count is small enough for the 32-bit sum index + 1 + count. *)
Theorem SelectNextTab_forward_backward (tv : TabView) :
  1 < GetItemCount tv ->
  2 * GetItemCount tv <= Int32.max_signed ->
  0 <= SelectedIndex tv < GetItemCount tv ->
  fst (SelectNextTab 1 tv) = true /\
  fst (SelectNextTab (-1) (snd (SelectNextTab 1 tv))) = true /\
  SelectedIndex (snd (SelectNextTab (-1) (snd (SelectNextTab 1 tv)))) = SelectedIndex tv.
Proof.
  intros Hn Hmax Hi.
  set (n := GetItemCount tv) in *. set (i := SelectedIndex tv) in *.
  rewrite (SelectNextTab_handled 1 tv) by (fold n; fold i; int32).
  fold n; fold i. cbn [fst snd].
  assert (Ej : Z.rem (i + 1 + n) n = if i + 1 <? n then i + 1 else 0).
  { rewrite rem_plus_modulus by lia.
    destruct (Z.ltb_spec (i + 1) n).
    - apply Z.mod_small. lia.
    - replace (i + 1) with n by lia. apply Z.mod_same. lia. }
  rewrite Ej. set (j := if i + 1 <? n then i + 1 else 0).
  assert (Hj : 0 <= j < n) by (subst j; destruct (Z.ltb_spec (i + 1) n); lia).
  assert (Hcount : GetItemCount (set_SelectedIndex j tv) = n)
    by apply GetItemCount_set_SelectedIndex.
  assert (Hsel : SelectedIndex (set_SelectedIndex j tv) = j)
    by apply SelectedIndex_set_SelectedIndex.
  rewrite (SelectNextTab_handled (-1)) by (rewrite ?Hcount, ?Hsel; int32).
  rewrite Hcount, Hsel. cbn [fst snd].
  rewrite SelectedIndex_set_SelectedIndex.
  split; [reflexivity | split; [reflexivity |]].
  replace (j + -1 + n) with (j - 1 + n) by lia.
  subst j. destruct (Z.ltb_spec (i + 1) n).
  - replace (i + 1 - 1 + n) with (i + n) by lia.
    rewrite rem_plus_modulus by lia. apply Z.mod_small. lia.
  - replace (0 - 1 + n) with (n - 1) by lia.
    rewrite Z.rem_small by lia. lia.
Qed.

Lemma SelectNextTab_forward_backward_witness :
  SelectedIndex
    (snd (SelectNextTab (-1) (snd (SelectNextTab 1 (with_SelectedIndex 2 three_tab_view))))) = 2.
Proof.
  apply (SelectNextTab_forward_backward (with_SelectedIndex 2 three_tab_view)).
  - vm_compute. reflexivity.
  - vm_compute. discriminate.
  - vm_compute. split; [discriminate | reflexivity].
Defined.

(** C10: whenever [SelectNextTab] reports handled for a step of +1 or -1
    and the selected index before was at least -1, the index it assigns
    lies in [0, n) for the item count n; from -1 the step +1 selects 0 and
    the step -1 selects n - 2.  The 32-bit sum does not overflow. *)
Theorem SelectNextTab_new_index_in_range (increment : Z) (tv : TabView) :
  increment = 1 \/ increment = -1 ->
  -1 <= SelectedIndex tv ->
  SelectedIndex tv + 1 + GetItemCount tv <= Int32.max_signed ->
  fst (SelectNextTab increment tv) = true ->
  1 < GetItemCount tv /\
  0 <= SelectedIndex (snd (SelectNextTab increment tv)) < GetItemCount tv /\
  (SelectedIndex tv = -1 -> increment = 1 ->
   SelectedIndex (snd (SelectNextTab increment tv)) = 0) /\
  (SelectedIndex tv = -1 -> increment = -1 ->
   SelectedIndex (snd (SelectNextTab increment tv)) = GetItemCount tv - 2).
Proof.
  intros Hinc Hi Hmax Hhandled.
  assert (Hn : 1 < GetItemCount tv).
  { unfold SelectNextTab in Hhandled.
    destruct (Z.ltb_spec 1 (GetItemCount tv)); [assumption | discriminate]. }
  set (n := GetItemCount tv) in *. set (i := SelectedIndex tv) in *.
  rewrite (SelectNextTab_handled increment tv) by (fold n; fold i; int32).
  fold n; fold i. cbn [snd]. rewrite SelectedIndex_set_SelectedIndex.
  assert (Hs : 0 <= i + increment + n) by lia.
  rewrite Z.rem_mod_nonneg by lia.
  split; [assumption | split; [apply Z.mod_pos_bound; lia | split]].
  - intros Ei Einc. replace (i + increment + n) with (0 + 1 * n) by lia.
    rewrite Z.mod_add by lia. apply Z.mod_small. lia.
  - intros Ei Einc. replace (i + increment + n) with (n - 2) by lia.
    apply Z.mod_small. lia.
Qed.

Lemma SelectNextTab_new_index_in_range_witness :
  0 <= SelectedIndex (snd (SelectNextTab (-1) three_tab_view)) < 3 /\
  SelectedIndex (snd (SelectNextTab (-1) three_tab_view)) = 1.
Proof.
  assert (Hinc : (-1 = 1 \/ -1 = -1)) by (right; reflexivity).
  assert (Hi : -1 <= SelectedIndex three_tab_view) by (vm_compute; discriminate).
  assert (Hmax : SelectedIndex three_tab_view + 1 + GetItemCount three_tab_view
                 <= Int32.max_signed) by (vm_compute; discriminate).
  assert (Hh : fst (SelectNextTab (-1) three_tab_view) = true) by (vm_compute; reflexivity).
  destruct (SelectNextTab_new_index_in_range (-1) three_tab_view Hinc Hi Hmax Hh)
    as (_ & Hrange & _ & Hback).
  split; [exact Hrange | exact (Hback eq_refl eq_refl)].
Defined.

(** C9: for every collection of at most one item, whether the count comes
    from a bound items source or from the control's own sequence,
    [SelectNextTab] with any increment reports unhandled and leaves the
    control, its selected index included, as it was. *)
Theorem SelectNextTab_small_collection_unhandled (increment : Z) (tv : TabView) :
  (TabItemsSource tv = None /\ (List.length (TabItems tv) <= 1)%nat) \/
  (exists elements, TabItemsSource tv = Some (Iterable elements) /\
                    (List.length elements <= 1)%nat) ->
  SelectNextTab increment tv = (false, tv) /\
  SelectedIndex (snd (SelectNextTab increment tv)) = SelectedIndex tv.
Proof.
  intros H.
  assert (Hn : GetItemCount tv <= 1).
  { unfold GetItemCount. destruct H as [[E Hl] | [elements [E Hl]]]; rewrite E.
    - rewrite UInt32_to_int_of_nat by (rewrite Int32_max_signed_eq; lia). lia.
    - rewrite GetItemCount_loop_short by assumption. lia. }
  rewrite (SelectNextTab_unhandled increment tv Hn). auto.
Qed.

Lemma SelectNextTab_small_collection_unhandled_witness :
  SelectNextTab 1 (control_of [tab_item 1] None) = (false, control_of [tab_item 1] None).
Proof.
  apply (SelectNextTab_small_collection_unhandled 1 (control_of [tab_item 1] None)).
  left. split; [reflexivity | simpl; lia].
Defined.

(* ================================================================== *)
(** ** Ctrl+F4 *)


Lemma try_as_Some target r o : try_as target r = Some o -> r = Some o.
Proof.
  unfold try_as. destruct r as [x |]; [| discriminate].
  destruct (implements (obj_class x) target); congruence.
Qed.




(** What the accelerator reports is what the command returns. *)
Lemma OnCtrlF4Invoked_reports tv :
  trace (OnCtrlF4Invoked tv) =
    trace (snd (RequestCloseCurrentTab tv))
      ++ [KeyboardAccelerator_Handled (fst (RequestCloseCurrentTab tv))].
Proof.
  unfold OnCtrlF4Invoked. destruct (RequestCloseCurrentTab tv) as [handled tv']. reflexivity.
Qed.

(* ================================================================== *)
(** ** Setting the selected item *)

Lemma same_object_sym a b : same_object a b = same_object b a.
Proof. apply Nat.eqb_sym. Qed.

Lemma find_item_absent (item : IInspectable) (es : list (IInspectable * Ref)) :
  (forall x, In x (map fst es) -> same_object item x = false) ->
  find (fun e => same_object (fst e) item) es = None.
Proof.
  induction es as [| e es IH]; intros H; [reflexivity |].
  simpl. rewrite same_object_sym, (H (fst e)) by (left; reflexivity).
  apply IH. intros x Hx. apply H. right. exact Hx.
Qed.

Lemma contains_false items item x :
  contains items item = false -> contains items x = true -> same_object item x = false.
Proof.
  unfold contains. intros Hi Hx.
  destruct (same_object item x) eqn:E; [| reflexivity].
  apply existsb_exists in Hx. destruct Hx as [y [Hy Exy]].
  assert (Hc : existsb (same_object item) items = true).
  { apply existsb_exists. exists y. split; [assumption |].
    unfold same_object in *. apply Nat.eqb_eq in E, Exy. apply Nat.eqb_eq. congruence. }
  congruence.
Qed.

(** An item that is not in the tab collection has no container. *)
Lemma ContainerFromItem_absent tv item :
  contains (TabItems tv) item = false ->
  host_items_in_TabItems tv ->
  ContainerFromItem (Some item) tv = None.
Proof.
  intros Habsent Hhost. unfold ContainerFromItem.
  destruct (m_listView tv) as [listView |] eqn:El; [| reflexivity].
  unfold lv_ContainerFromItem. rewrite find_item_absent; [reflexivity |].
  intros x Hx. apply (contains_false (TabItems tv)); [assumption |].
  apply (Hhost listView); assumption.
Qed.

(** C6, as stated, fails: a tab header that is not in the collection is
    taken by the direct cast, so the host list's selected item is written
    and the header's is-selected flag is set. *)
Lemma set_SelectedItem_tab_outside_collection :
  ~ (forall (tv : TabView) (item : IInspectable),
        contains (TabItems tv) item = false ->
        trace (set_SelectedItem (Some item) tv) = trace tv).
Proof.
  intros H. specialize (H three_tab_view (tab_item 9) eq_refl).
  vm_compute in H. discriminate H.
Qed.

(** C6 (amended): for every item that is not in the tab collection and is
    not itself a tab header, setting [SelectedItem] to it resolves to no
    container and makes no call on the host list or on a tab: the list's
    selected item is not written and no is-selected flag is set. *)
Theorem set_SelectedItem_absent_item (tv : TabView) (item : IInspectable) :
  contains (TabItems tv) item = false ->
  try_as TabViewItemClass (Some item) = None ->
  host_items_in_TabItems tv ->
  ContainerFromItem (Some item) tv = None /\
  trace (set_SelectedItem (Some item) tv) = trace tv /\
  SelectedIndex (set_SelectedItem (Some item) tv) = SelectedIndex tv.
Proof.
  intros Habsent Hcast Hhost.
  pose proof (ContainerFromItem_absent tv item Habsent Hhost) as Hc.
  split; [exact Hc |].
  unfold set_SelectedItem.
  destruct (same_ref (Some item) (SelectedItem tv)); [split; reflexivity |].
  unfold OnSelectedItemPropertyChanged, UpdateSelectedItem.
  cbn [m_listView with_SelectedItem SelectedItem].
  destruct (m_listView tv) as [listView |] eqn:El; [| split; reflexivity].
  rewrite Hcast.
  replace (ContainerFromItem (Some item) (with_SelectedItem (Some item) tv))
    with (ContainerFromItem (Some item) tv) by reflexivity.
  rewrite Hc. split; reflexivity.
Qed.

Lemma set_SelectedItem_absent_item_witness :
  trace (set_SelectedItem (Some (data_item 9)) three_tab_view) = [].
Proof.
  apply (set_SelectedItem_absent_item three_tab_view (data_item 9)).
  - reflexivity.
  - reflexivity.
  - intros listView x El Hx. injection El as <-.
    simpl in Hx. destruct Hx as [<- | [<- | [<- | []]]]; reflexivity.
Defined.

(* ================================================================== *)
(** ** Up and Down between two tabs *)

(** C8: for every Up or Down focus navigation whose old and new focused
    elements are both tabs of this control's host list and whose input
    device is not a game controller, the handler cancels the navigation
    and marks the event handled, and asks for no other focus move. *)
Theorem OnListViewGettingFocus_cancels_between_tabs
    (args : GettingFocusEventArgs) (next : Ref) (tv : TabView)
    (listView : ListView) (oldItem newItem : IInspectable) :
  Direction args = Direction_Up \/ Direction args = Direction_Down ->
  try_as TabViewItemClass (OldFocusedElement args) = Some oldItem ->
  try_as TabViewItemClass (NewFocusedElement args) = Some newItem ->
  m_listView tv = Some listView ->
  lv_IndexFromContainer listView oldItem <> -1 ->
  lv_IndexFromContainer listView newItem <> -1 ->
  InputDevice args <> Device_GameController ->
  trace (OnListViewGettingFocus args next tv) =
    trace tv ++ [GettingFocus_Cancel true; GettingFocus_Handled true].
Proof.
  intros Hdir Hold Hnew Hlist Hio Hin Hdev.
  unfold OnListViewGettingFocus.
  assert (Hud : is_Up_or_Down (Direction args) = true)
    by (destruct Hdir as [-> | ->]; reflexivity).
  rewrite Hud, Hold, Hnew, Hlist.
  destruct (Z.eqb_spec (lv_IndexFromContainer listView oldItem) (-1)); [contradiction |].
  destruct (Z.eqb_spec (lv_IndexFromContainer listView newItem) (-1)); [contradiction |].
  cbn [negb andb].
  assert (Hg : is_GameController (InputDevice args) = false)
    by (destruct (InputDevice args); try reflexivity; contradiction).
  rewrite Hg. cbn [trace emit]. rewrite <- app_assoc. reflexivity.
Qed.

Lemma OnListViewGettingFocus_cancels_between_tabs_witness :
  trace (OnListViewGettingFocus
           {| Direction := Direction_Up;
              OldFocusedElement := Some (tab_item 3);
              NewFocusedElement := Some (tab_item 2);
              InputDevice := Device_Keyboard;
              is_IGettingFocusEventArgs2 := true |}
           None three_tab_view) =
    [GettingFocus_Cancel true; GettingFocus_Handled true].
Proof.
  apply (OnListViewGettingFocus_cancels_between_tabs _ None three_tab_view
           (list_of_tabs three_tabs) (tab_item 3) (tab_item 2)).
  - left. reflexivity.
  - reflexivity.
  - reflexivity.
  - reflexivity.
  - vm_compute. discriminate.
  - vm_compute. discriminate.
  - discriminate.
Defined.

(* ================================================================== *)
(** ** Absent collaborators *)

Lemma bind_Failed {A B} (m : M A) (k : A -> M B) tv f tv' :
  m tv = Failed f tv' -> bind m k tv = Failed f tv'.
Proof. unfold bind. intros ->. reflexivity. Qed.

Lemma bind_Returned {A B} (m : M A) (k : A -> M B) tv a tv' :
  m tv = Returned a tv' -> bind m k tv = k a tv'.
Proof. unfold bind. intros ->. reflexivity. Qed.

(** Without a decrease button in the scroll viewer's tree the handler
    calls [Click] through a null reference. *)
Lemma OnScrollViewerLoaded_without_decrease_button tv scrollViewer :
  m_scrollViewer tv = Some scrollViewer ->
  FindInVisualTreeByName scrollViewer "ScrollDecreaseButton" = None ->
  OnScrollViewerLoaded tv = Failed null_dereference tv.
Proof.
  intros Hs Hfind. unfold OnScrollViewerLoaded.
  apply bind_Failed. unfold OnScrollViewerLoaded_buttons. rewrite Hs, Hfind. reflexivity.
Qed.

(** With both buttons in the tree the subscriptions are made. *)
Lemma OnScrollViewerLoaded_buttons_found tv scrollViewer decrease increase :
  m_scrollViewer tv = Some scrollViewer ->
  FindInVisualTreeByName scrollViewer "ScrollDecreaseButton" = Some decrease ->
  FindInVisualTreeByName scrollViewer "ScrollIncreaseButton" = Some increase ->
  obj_class decrease = RepeatButtonClass ->
  obj_class increase = RepeatButtonClass ->
  OnScrollViewerLoaded_buttons tv =
    Returned tt (emit (Button_Click increase OnScrollIncreaseClick_handler)
                   (emit (Button_Click decrease OnScrollDecreaseClick_handler) tv)).
Proof.
  intros Hs Hd Hi Hcd Hci. unfold OnScrollViewerLoaded_buttons.
  rewrite Hs, Hd, Hi. unfold bind, as_. rewrite Hcd, Hci. reflexivity.
Qed.

(** C4 (the code departs from it): when the scroll viewer's visual tree
    has no element named ScrollDecreaseButton, [OnScrollViewerLoaded]
    does not skip the subscription: it fails on the null button, before
    the tab widths are updated. *)
Theorem OnScrollViewerLoaded_null_button :
  OnScrollViewerLoaded view_without_scroll_buttons =
    Failed null_dereference view_without_scroll_buttons.
Proof.
  apply (OnScrollViewerLoaded_without_decrease_button _ {| sv_visual_tree := [] |});
    reflexivity.
Qed.

(** The width loop, for its part, skips an item whose container is not
    resolved. *)
Lemma UpdateTabWidths_items_unresolved item items tabWidth tv :
  try_as TabViewItemClass (Some item) = None ->
  ContainerFromItem (Some item) tv = None ->
  UpdateTabWidths_items (item :: items) tabWidth tv = UpdateTabWidths_items items tabWidth tv.
Proof.
  intros Hcast Hc. cbn [UpdateTabWidths_items]. unfold bind.
  rewrite Hcast, Hc. reflexivity.
Qed.

(* ================================================================== *)
(** ** Drag completed *)

(** The lookup of the dragged item's tab does not touch the control. *)
Lemma FindTabViewItemFromDragItem_scan_state count i item tv o :
  FindTabViewItemFromDragItem_scan count i item tv = o -> final_state o = tv.
Proof.
  revert i o. induction count as [| count IH]; intros i o; simpl.
  - intros <-. reflexivity.
  - destruct (try_as TabViewItemClass (ContainerFromIndex i tv)) as [tabItem |].
    + destruct (Content_is tabItem item).
      * intros <-. reflexivity.
      * apply IH.
    + intros <-. reflexivity.
Qed.

Lemma FindTabViewItemFromDragItem_state item tv tab tv' :
  FindTabViewItemFromDragItem item tv = Returned tab tv' -> tv' = tv.
Proof.
  unfold FindTabViewItemFromDragItem.
  match goal with |- context [match ?t with Some _ => Returned ?t tv | None => _ end] =>
    destruct t end.
  - intros H. injection H as _ <-. reflexivity.
  - intros H. apply FindTabViewItemFromDragItem_scan_state in H. exact H.
Qed.

(** An item whose container is a tab is resolved at once. *)
Lemma FindTabViewItemFromDragItem_container item tv tab :
  try_as TabViewItemClass (ContainerFromItem (Some item) tv) = Some tab ->
  FindTabViewItemFromDragItem item tv = Returned (Some tab) tv.
Proof. unfold FindTabViewItemFromDragItem. intros ->. reflexivity. Qed.

(** Whenever the dragged item's tab is looked up without a failure, one
    drag-completed event is raised, and one dropped-outside event besides
    exactly when the drop result is [None]; both carry the item and the
    tab found. *)
Lemma OnListViewDragItemsCompleted_events args item rest tab tv :
  Items args = item :: rest ->
  FindTabViewItemFromDragItem item tv = Returned tab tv ->
  exists tv',
    OnListViewDragItemsCompleted args tv = Returned tt tv' /\
    trace tv' = trace tv ++ TabDragCompleted item tab ::
                  (if DropResult args =? DataPackageOperation_None
                   then [TabDroppedOutside item tab] else []) /\
    count_events is_TabDragCompleted (trace tv') =
      S (count_events is_TabDragCompleted (trace tv)) /\
    count_events is_TabDroppedOutside (trace tv') =
      ((if (DropResult args =? DataPackageOperation_None)%Z then 1 else 0)
       + count_events is_TabDroppedOutside (trace tv))%nat.
Proof.
  intros Hitems Hfind. unfold OnListViewDragItemsCompleted.
  rewrite Hitems. unfold GetAt. cbn [Z.ltb Z.compare Z.to_nat nth_error].
  unfold bind at 1. cbn [ret].
  rewrite (bind_Returned _ _ _ _ _ Hfind).
  unfold bind, lift. unfold count_events.
  destruct (DropResult args =? DataPackageOperation_None).
  - eexists. split; [reflexivity |]. cbn [trace emit].
    rewrite <- app_assoc. split; [reflexivity |].
    rewrite !filter_app, !length_app. simpl. lia.
  - eexists. split; [reflexivity |]. cbn [trace emit ret].
    split; [reflexivity |].
    rewrite !filter_app, !length_app. simpl. lia.
Qed.

(** C7 (the code departs from it): the fallback scan for the dragged
    item's tab uses the container at each index without a test for null.
    Here the dragged data object has no container and is no element, the
    container at index 0 is not generated, and the callback fails before
    any event is raised. *)
Theorem OnListViewDragItemsCompleted_null_container :
  OnListViewDragItemsCompleted
    {| Items := [data_item 1]; DropResult := DataPackageOperation_None |}
    view_with_ungenerated_container
  = Failed null_dereference view_with_ungenerated_container
  /\ count_events is_TabDragCompleted
       (trace (final_state
                 (OnListViewDragItemsCompleted
                    {| Items := [data_item 1]; DropResult := DataPackageOperation_None |}
                    view_with_ungenerated_container))) = 0%nat.
Proof. split; reflexivity. Qed.

(* ================================================================== *)
(** ** Calls on collaborators leave the properties alone *)

Lemma same_properties_refl tv : same_properties tv tv.
Proof. repeat split. Qed.

Lemma same_properties_trans tv1 tv2 tv3 :
  same_properties tv1 tv2 -> same_properties tv2 tv3 -> same_properties tv1 tv3.
Proof.
  unfold same_properties. intros (A1 & B1 & C1 & D1) (A2 & B2 & C2 & D2).
  repeat split; congruence.
Qed.

Lemma same_properties_emit e tv : same_properties tv (emit e tv).
Proof. repeat split. Qed.

Lemma containers_are_tabs_same tv tv' :
  m_listView tv' = m_listView tv -> containers_are_tabs tv -> containers_are_tabs tv'.
Proof.
  unfold containers_are_tabs. intros E H listView item container El.
  apply H. rewrite <- E. exact El.
Qed.

Lemma ContainerFromIndex_In tv index container :
  ContainerFromIndex index tv = Some container ->
  exists listView item,
    m_listView tv = Some listView /\ In (item, Some container) (lv_entries listView).
Proof.
  unfold ContainerFromIndex. destruct (m_listView tv) as [listView |]; [| discriminate].
  unfold lv_ContainerFromIndex. destruct (index <? 0); [discriminate |].
  destruct (nth_error (lv_entries listView) (Z.to_nat index)) as [[item c] |] eqn:E;
    [| discriminate].
  intros ->. exists listView, item. split; [reflexivity |].
  eapply nth_error_In. exact E.
Qed.

Lemma ContainerFromItem_In tv item container :
  ContainerFromItem item tv = Some container ->
  exists listView item',
    m_listView tv = Some listView /\ In (item', Some container) (lv_entries listView).
Proof.
  unfold ContainerFromItem. destruct (m_listView tv) as [listView |]; [| discriminate].
  unfold lv_ContainerFromItem. destruct item as [i |]; [| discriminate].
  destruct (find (fun e => same_object (fst e) i) (lv_entries listView))
    as [[item' c] |] eqn:E; [| discriminate].
  intros ->. exists listView, item'. split; [reflexivity |].
  apply find_some in E. apply E.
Qed.

Lemma UpdateTabWidths_column_same tv : same_properties tv (snd (UpdateTabWidths_column tv)).
Proof.
  unfold UpdateTabWidths_column, set_ScrollBarVisibility, set_rightContentColumn_MinWidth.
  repeat match goal with
         | |- context [match ?x with _ => _ end] => destruct x
         end; repeat split.
Qed.

Lemma UpdateTabWidths_items_returns items tabWidth tv :
  containers_are_tabs tv ->
  exists tv', UpdateTabWidths_items items tabWidth tv = Returned tt tv' /\ same_properties tv tv'.
Proof.
  revert tv. induction items as [| item items IH]; intros tv Htabs.
  - exists tv. split; [reflexivity | apply same_properties_refl].
  - cbn [UpdateTabWidths_items]. unfold bind at 1.
    assert (Hstep : forall tvi, exists tv',
               (match tvi with
                | Some tvi => lift (emit (TabViewItem_Width tvi tabWidth))
                | None => ret tt
                end ;;; UpdateTabWidths_items items tabWidth)%tabview tv = Returned tt tv'
               /\ same_properties tv tv').
    { intros [tvi |]; unfold bind, lift, ret.
      - destruct (IH (emit (TabViewItem_Width tvi tabWidth) tv)) as [tv' [E S]].
        { eapply containers_are_tabs_same; [| exact Htabs]. reflexivity. }
        exists tv'. split; [exact E |].
        eapply same_properties_trans; [apply same_properties_emit | exact S].
      - apply IH. exact Htabs. }
    destruct (try_as TabViewItemClass (Some item)) as [tvi |]; [exact (Hstep (Some tvi)) |].
    destruct (ContainerFromItem (Some item) tv) as [container |] eqn:Ec.
    + destruct (ContainerFromItem_In _ _ _ Ec) as (listView & item' & El & Hin).
      unfold as_. rewrite (Htabs _ _ _ El Hin). cbn [implements ret].
      exact (Hstep (Some container)).
    + cbn [as_ ret]. exact (Hstep None).
Qed.

(** When the containers are tab headers [UpdateTabWidths] returns, and it
    changes no property of the control. *)
Lemma UpdateTabWidths_returns tv :
  containers_are_tabs tv ->
  exists tv', UpdateTabWidths tv = Returned tt tv' /\ same_properties tv tv'.
Proof.
  intros Htabs. unfold UpdateTabWidths.
  pose proof (UpdateTabWidths_column_same tv) as Hcol.
  destruct (UpdateTabWidths_column tv) as [tabWidth tv1]. cbn [snd] in Hcol.
  destruct (UpdateTabWidths_items_returns (TabItems tv1) tabWidth tv1) as [tv' [E S]].
  { eapply containers_are_tabs_same; [apply Hcol | exact Htabs]. }
  exists tv'. split; [exact E | eapply same_properties_trans; eassumption].
Qed.

(* ================================================================== *)
(** ** Reselection after a removal *)

Lemma same_ref_sym a b : same_ref a b = same_ref b a.
Proof. destruct a, b; simpl; try reflexivity. apply same_object_sym. Qed.

Lemma same_ref_refl a : same_ref a a = true.
Proof. destruct a; simpl; [apply Nat.eqb_refl | reflexivity]. Qed.

Lemma UpdateSelectedItem_same tv : same_properties tv (UpdateSelectedItem tv).
Proof.
  unfold UpdateSelectedItem.
  repeat match goal with
         | |- context [match ?x with _ => _ end] => destruct x
         end; repeat split.
Qed.

(** The setter stores the reference it is given, and touches neither the
    selected index nor the collection. *)
Lemma set_SelectedItem_spec item tv :
  same_ref (SelectedItem (set_SelectedItem item tv)) item = true /\
  m_listView (set_SelectedItem item tv) = m_listView tv /\
  TabItems (set_SelectedItem item tv) = TabItems tv /\
  SelectedIndex (set_SelectedItem item tv) = SelectedIndex tv.
Proof.
  unfold set_SelectedItem. destruct (same_ref item (SelectedItem tv)) eqn:E.
  - rewrite same_ref_sym. auto.
  - unfold OnSelectedItemPropertyChanged.
    destruct (UpdateSelectedItem_same (with_SelectedItem item tv)) as (A & B & C & D).
    rewrite A, B, C, D. cbn [with_SelectedItem SelectedItem m_listView TabItems SelectedIndex].
    split; [apply same_ref_refl | auto].
Qed.

Lemma as_ListViewItem_container tv index :
  containers_are_tabs tv ->
  as_ ListViewItemClass (ContainerFromIndex index tv) tv
  = Returned (ContainerFromIndex index tv) tv.
Proof.
  intros Htabs. destruct (ContainerFromIndex index tv) as [c |] eqn:E; [| reflexivity].
  destruct (ContainerFromIndex_In _ _ _ E) as (listView & item & El & Hin).
  unfold as_. rewrite (Htabs _ _ _ El Hin). reflexivity.
Qed.

(** One step around the tabs. *)
Lemma circular_step n s k :
  0 <= s < n -> 0 <= k ->
  (if n <=? (s + k) mod n + 1 then 0 else (s + k) mod n + 1) = (s + (k + 1)) mod n.
Proof.
  intros Hs Hk.
  assert (Hb : 0 <= (s + k) mod n < n) by (apply Z.mod_pos_bound; lia).
  assert (E : (s + (k + 1)) mod n = ((s + k) mod n + 1) mod n).
  { replace (s + (k + 1)) with (s + k + 1) by lia.
    symmetry. apply Z.add_mod_idemp_l. lia. }
  rewrite E.
  destruct (Z.leb_spec n ((s + k) mod n + 1)).
  - replace ((s + k) mod n + 1) with n by lia. symmetry. apply Z.mod_same. lia.
  - symmetry. apply Z.mod_small. lia.
Qed.

(** The scan is back at its start after [n] steps and not before. *)
Lemma circular_back n s k :
  0 <= s < n -> 0 < k <= n -> ((s + k) mod n = s <-> k = n).
Proof.
  intros Hs Hk. split.
  - intros E. destruct (Z_lt_dec (s + k) n) as [Hlt | Hge].
    + rewrite Z.mod_small in E by lia. lia.
    + replace (s + k) with (s + k - n + 1 * n) in E by lia.
      rewrite Z.mod_add in E by lia. rewrite Z.mod_small in E by lia. lia.
  - intros ->. replace (s + n) with (s + 1 * n) by lia.
    rewrite Z.mod_add by lia. apply Z.mod_small. lia.
Qed.

(** The loop, for the [count] offsets that are left, does what
    [first_selectable_offset] says, and [count] iterations are enough. *)
Lemma OnItemsChanged_loop_spec tv n s :
  n = Z.of_nat (List.length (TabItems tv)) ->
  n <= Int32.max_signed ->
  0 <= s < n ->
  containers_are_tabs tv ->
  forall count k,
    0 <= k -> k + Z.of_nat count = n -> (0 < count)%nat ->
    OnItemsChanged_loop count n s ((s + k) mod n) tv =
      Some (match first_selectable_offset tv n s count k with
            | Some j =>
                match nth_error (TabItems tv) (Z.to_nat ((s + j) mod n)) with
                | Some item => Returned tt (set_SelectedItem (Some item) tv)
                | None => Failed hresult_out_of_bounds tv
                end
            | None => Returned tt tv
            end).
Proof.
  intros Hn Hmax Hs Htabs. induction count as [| count IH]; intros k Hk Hsum Hpos; [lia |].
  assert (Hb : 0 <= (s + k) mod n < n) by (apply Z.mod_pos_bound; lia).
  cbn [OnItemsChanged_loop first_selectable_offset].
  rewrite as_ListViewItem_container by assumption.
  unfold tab_selectable.
  destruct (selectable (ContainerFromIndex ((s + k) mod n) tv)).
  - unfold GetAt. destruct (Z.ltb_spec ((s + k) mod n) 0); [lia |].
    destruct (nth_error (TabItems tv) (Z.to_nat ((s + k) mod n))); reflexivity.
  - rewrite Int32_add_in_range by int32.
    rewrite circular_step by lia.
    destruct (Z.eqb_spec ((s + (k + 1)) mod n) s) as [E | E].
    + apply circular_back in E; [| lia | lia].
      assert (count = 0%nat) by lia. subst count. reflexivity.
    + assert (k + 1 <> n) by (intros E'; apply E; apply circular_back; lia).
      apply IH; lia.
Qed.

(** The loop ends within one pass, whatever the containers are. *)
Lemma OnItemsChanged_loop_total tv n s :
  n <= Int32.max_signed ->
  0 <= s < n ->
  forall count k,
    0 <= k -> k + Z.of_nat count = n -> (0 < count)%nat ->
    OnItemsChanged_loop count n s ((s + k) mod n) tv <> None.
Proof.
  intros Hmax Hs. induction count as [| count IH]; intros k Hk Hsum Hpos; [lia |].
  assert (Hb : 0 <= (s + k) mod n < n) by (apply Z.mod_pos_bound; lia).
  cbn [OnItemsChanged_loop].
  destruct (as_ ListViewItemClass (ContainerFromIndex ((s + k) mod n) tv) tv)
    as [nextItem tv' | f tv'] eqn:Eas; [| discriminate].
  assert (tv' = tv).
  { unfold as_ in Eas. destruct (ContainerFromIndex ((s + k) mod n) tv) as [c |].
    - destruct (implements (obj_class c) ListViewItemClass); [| discriminate].
      injection Eas as _ <-. reflexivity.
    - injection Eas as _ <-. reflexivity. }
  subst tv'.
  destruct (selectable nextItem).
  - destruct (GetAt (TabItems tv) ((s + k) mod n) tv); discriminate.
  - rewrite Int32_add_in_range by int32.
    rewrite circular_step by lia.
    destruct (Z.eqb_spec ((s + (k + 1)) mod n) s) as [E | E]; [discriminate |].
    assert (k + 1 <> n) by (intros E'; apply E; apply circular_back; lia).
    apply IH; lia.
Qed.

(** [OnItemsChanged] always comes to an end. *)
Lemma OnItemsChanged_total item tv :
  Z.of_nat (List.length (TabItems tv)) <= Int32.max_signed ->
  (forall args, item = Some args -> 0 <= Index args <= Int32.max_signed) ->
  exists o, OnItemsChanged item tv = Some o.
Proof.
  intros Hn Hindex. unfold OnItemsChanged, OnItemsChanged_fuel.
  assert (Hfin : forall r : option (Outcome unit), r <> None ->
            exists o, match r with
                      | Some (Returned _ tv') => Some (UpdateTabWidths tv')
                      | Some (Failed f tv') => Some (Failed f tv')
                      | None => None
                      end = Some o).
  { intros [[u tv' | f tv'] |] Hr; [eauto | eauto | congruence]. }
  apply Hfin. destruct item as [args |]; [| discriminate].
  specialize (Hindex args eq_refl).
  set (n := Z.of_nat (List.length (TabItems tv))) in *.
  unfold OnItemsChanged_reselect, numItems_of.
  rewrite UInt32_to_int_of_nat by (fold n; lia). fold n.
  destruct (is_ItemRemoved (get_CollectionChange args) && (0 <? n)) eqn:Ec; [| discriminate].
  apply andb_prop in Ec. destruct Ec as [_ Hpos]. apply Z.ltb_lt in Hpos.
  destruct ((SelectedIndex tv =? -1) || (SelectedIndex tv =? UInt32.to_int (Index args)));
    [| discriminate].
  assert (Ei : UInt32.to_int (Index args) = Index args)
    by (apply Int32_wrap_in_range; int32).
  rewrite Ei.
  set (s := if n <=? Index args then n - 1 else Index args).
  assert (Hs : 0 <= s < n) by (subst s; destruct (Z.leb_spec n (Index args)); lia).
  pose proof (OnItemsChanged_loop_total tv n s Hn Hs (List.length (TabItems tv)) 0) as L.
  rewrite Z.add_0_r, (Z.mod_small s n) in L by lia.
  apply L; fold n; lia.
Qed.

Lemma first_selectable_offset_Some tv n s count k j :
  (forall j', k <= j' < j -> tab_selectable tv ((s + j') mod n) = false) ->
  tab_selectable tv ((s + j) mod n) = true ->
  k <= j < k + Z.of_nat count ->
  first_selectable_offset tv n s count k = Some j.
Proof.
  revert k. induction count as [| count IH]; intros k Hbefore Hj Hrange; [lia |].
  cbn [first_selectable_offset].
  destruct (Z.eq_dec k j) as [-> | Hne].
  - rewrite Hj. reflexivity.
  - rewrite Hbefore by lia. apply IH; [| assumption | lia].
    intros j' Hj'. apply Hbefore. lia.
Qed.

Lemma first_selectable_offset_None tv n s count k :
  (forall j, k <= j < k + Z.of_nat count -> tab_selectable tv ((s + j) mod n) = false) ->
  first_selectable_offset tv n s count k = None.
Proof.
  revert k. induction count as [| count IH]; intros k H; [reflexivity |].
  cbn [first_selectable_offset]. rewrite H by lia.
  apply IH. intros j Hj. apply H. lia.
Qed.

Lemma OnItemsChanged_reselect_spec tv args :
  get_CollectionChange args = ItemRemoved ->
  0 < Z.of_nat (List.length (TabItems tv)) <= Int32.max_signed ->
  0 <= Index args <= Int32.max_signed ->
  SelectedIndex tv = -1 \/ SelectedIndex tv = Index args ->
  containers_are_tabs tv ->
  OnItemsChanged_reselect (List.length (TabItems tv)) args tv =
    Some (match first_selectable_offset tv (Z.of_nat (List.length (TabItems tv)))
                  (Z.min (Index args) (Z.of_nat (List.length (TabItems tv)) - 1))
                  (List.length (TabItems tv)) 0 with
          | Some j =>
              match nth_error (TabItems tv)
                      (Z.to_nat ((Z.min (Index args) (Z.of_nat (List.length (TabItems tv)) - 1) + j)
                                 mod Z.of_nat (List.length (TabItems tv)))) with
              | Some item => Returned tt (set_SelectedItem (Some item) tv)
              | None => Failed hresult_out_of_bounds tv
              end
          | None => Returned tt tv
          end).
Proof.
  intros Hchange Hn Hindex Hsel Htabs.
  set (n := Z.of_nat (List.length (TabItems tv))) in *.
  unfold OnItemsChanged_reselect, numItems_of.
  rewrite UInt32_to_int_of_nat by (fold n; lia). fold n.
  rewrite Hchange. cbn [is_ItemRemoved andb].
  destruct (Z.ltb_spec 0 n); [| lia].
  assert (Ei : UInt32.to_int (Index args) = Index args)
    by (apply Int32_wrap_in_range; int32).
  rewrite Ei.
  assert (Hcond : (SelectedIndex tv =? -1) || (SelectedIndex tv =? Index args) = true).
  { destruct Hsel as [-> | ->]; [reflexivity |].
    rewrite Z.eqb_refl. apply orb_true_r. }
  rewrite Hcond.
  assert (Estart : (if n <=? Index args then n - 1 else Index args) = Z.min (Index args) (n - 1))
    by (destruct (Z.leb_spec n (Index args)); lia).
  rewrite Estart. set (s := Z.min (Index args) (n - 1)).
  assert (Hs : 0 <= s < n) by (subst s; lia).
  pose proof (OnItemsChanged_loop_spec tv n s eq_refl (proj2 Hn) Hs Htabs
                (List.length (TabItems tv)) 0) as L.
  rewrite Z.add_0_r, (Z.mod_small s n) in L by lia.
  apply L; fold n; lia.
Qed.

(** C2, as stated, fails: when the last tab is removed while selected,
    the tab the handler selects is the new last tab, the one just before
    the removed index, and not the tab a scan that wraps to 0 comes to
    first. *)
Lemma OnItemsChanged_last_tab_removed :
  ~ (forall (tv : TabView) (args : IVectorChangedEventArgs) (o : Outcome unit),
        get_CollectionChange args = ItemRemoved ->
        TabItems tv <> [] ->
        SelectedIndex tv = Index args ->
        OnItemsChanged (Some args) tv = Some o ->
        same_ref (SelectedItem (final_state o))
                 (spec_nearest_at_or_after tv (Index args)) = true).
Proof.
  intros H.
  specialize (H view_after_removing_last
                {| get_CollectionChange := ItemRemoved; Index := 2 |}
                _ eq_refl ltac:(discriminate) eq_refl eq_refl).
  vm_compute in H. discriminate H.
Qed.

(** C2 (amended): on an item-removed notification that leaves a
    collection that is not empty, when the selection was unset or pointed
    at the removed index, the handler scans the tabs once around, forward
    and wrapping to 0, starting at the removed index or, when that index
    is past the end, at the last tab; it selects the first tab whose
    container is generated, enabled and visible, and leaves the selection
    as it was when there is none. *)
Theorem OnItemsChanged_selects_closest_tab (tv : TabView) (args : IVectorChangedEventArgs) :
  get_CollectionChange args = ItemRemoved ->
  0 < Z.of_nat (List.length (TabItems tv)) <= Int32.max_signed ->
  0 <= Index args <= Int32.max_signed ->
  SelectedIndex tv = -1 \/ SelectedIndex tv = Index args ->
  containers_are_tabs tv ->
  (forall j item,
      0 <= j < Z.of_nat (List.length (TabItems tv)) ->
      tab_selectable tv
        ((Z.min (Index args) (Z.of_nat (List.length (TabItems tv)) - 1) + j)
         mod Z.of_nat (List.length (TabItems tv))) = true ->
      (forall j', 0 <= j' < j ->
         tab_selectable tv
           ((Z.min (Index args) (Z.of_nat (List.length (TabItems tv)) - 1) + j')
            mod Z.of_nat (List.length (TabItems tv))) = false) ->
      nth_error (TabItems tv)
        (Z.to_nat ((Z.min (Index args) (Z.of_nat (List.length (TabItems tv)) - 1) + j)
                   mod Z.of_nat (List.length (TabItems tv)))) = Some item ->
      exists tv',
        OnItemsChanged (Some args) tv = Some (Returned tt tv') /\
        same_ref (SelectedItem tv') (Some item) = true /\
        SelectedIndex tv' = SelectedIndex tv) /\
  ((forall i, 0 <= i < Z.of_nat (List.length (TabItems tv)) -> tab_selectable tv i = false) ->
   exists tv',
     OnItemsChanged (Some args) tv = Some (Returned tt tv') /\
     SelectedItem tv' = SelectedItem tv /\
     SelectedIndex tv' = SelectedIndex tv).
Proof.
  intros Hchange Hn Hindex Hsel Htabs.
  pose proof (OnItemsChanged_reselect_spec tv args Hchange Hn Hindex Hsel Htabs) as R.
  set (n := Z.of_nat (List.length (TabItems tv))) in *.
  set (s := Z.min (Index args) (n - 1)) in *.
  unfold OnItemsChanged, OnItemsChanged_fuel. rewrite R. clear R.
  split.
  - intros j item Hj Hsel_j Hbefore Hitem.
    rewrite (first_selectable_offset_Some tv n s _ 0 j) by (auto; fold n; lia).
    rewrite Hitem.
    destruct (set_SelectedItem_spec (Some item) tv) as (A & B & C & D).
    destruct (UpdateTabWidths_returns (set_SelectedItem (Some item) tv)) as [tv' [E S]].
    { eapply containers_are_tabs_same; [exact B | exact Htabs]. }
    exists tv'. split; [rewrite E; reflexivity |].
    destruct S as (_ & _ & Si & Sx). rewrite Si, Sx. auto.
  - intros Hnone.
    rewrite first_selectable_offset_None.
    + destruct (UpdateTabWidths_returns tv Htabs) as [tv' [E S]].
      exists tv'. split; [rewrite E; reflexivity |].
      destruct S as (_ & _ & Si & Sx). auto.
    + intros j Hj. apply Hnone. apply Z.mod_pos_bound. lia.
Qed.

Lemma OnItemsChanged_selects_closest_tab_witness :
  exists tv',
    OnItemsChanged (Some {| get_CollectionChange := ItemRemoved; Index := 2 |})
      view_after_removing_last = Some (Returned tt tv') /\
    same_ref (SelectedItem tv') (Some (tab_item 2)) = true /\
    SelectedIndex tv' = 2.
Proof.
  assert (Htabs : containers_are_tabs view_after_removing_last).
  { intros listView item container El Hin. injection El as <-.
    simpl in Hin. destruct Hin as [E | [E | []]]; injection E as _ <-; reflexivity. }
  destruct (OnItemsChanged_selects_closest_tab view_after_removing_last
              {| get_CollectionChange := ItemRemoved; Index := 2 |}
              eq_refl) as [Hfound _].
  - vm_compute. split; [reflexivity | discriminate].
  - vm_compute. split; discriminate.
  - right. reflexivity.
  - exact Htabs.
  - apply (Hfound 0 (tab_item 2)).
    + vm_compute. split; [discriminate | reflexivity].
    + reflexivity.
    + intros j' Hj'. lia.
    + reflexivity.
Defined.

(* ================================================================== *)
(** ** Doubles: order, clamping and the values that are not NaN *)

Lemma SFcompare_antisym x y :
  SFcompare y x = option_map CompOpp (SFcompare x y).
Proof.
  destruct x as [sx | sx | | sx mx ex], y as [sy | sy | | sy my ey]; simpl;
    try reflexivity;
    try (destruct sx; reflexivity); try (destruct sy; reflexivity);
    try (destruct sx, sy; reflexivity).
  destruct sx, sy; simpl; try reflexivity.
  - rewrite (Z.compare_antisym ey ex).
    destruct (ey ?= ex) eqn:E; simpl; try reflexivity.
    rewrite (Pos.compare_cont_antisym mx my Eq). simpl. reflexivity.
  - rewrite (Z.compare_antisym ey ex).
    destruct (ey ?= ex) eqn:E; simpl; try reflexivity.
    rewrite (Pos.compare_cont_antisym mx my Eq). simpl. 
    destruct (Pos.compare_cont Eq mx my); reflexivity.
Qed.

Lemma SFcompare_refl x : Double.is_nan x = false -> SFcompare x x = Some Eq.
Proof.
  destruct x as [s | s | | s m e]; simpl; intros H; try discriminate;
    try (destruct s; reflexivity).
  rewrite Z.compare_refl.
  assert (Pos.compare_cont Eq m m = Eq) by apply Pos.compare_refl.
  destruct s; rewrite H0; reflexivity.
Qed.

Lemma leb_not_nan x y : Double.leb x y = true -> Double.is_nan x = false /\ Double.is_nan y = false.
Proof.
  unfold Double.leb, SFleb. destruct x, y; simpl; intros H; try discriminate; auto.
Qed.

Lemma leb_refl x : Double.is_nan x = false -> Double.leb x x = true.
Proof. intros H. unfold Double.leb, SFleb. rewrite SFcompare_refl by assumption. reflexivity. Qed.

Lemma SFcompare_not_nan x y :
  Double.is_nan x = false -> Double.is_nan y = false -> exists c, SFcompare x y = Some c.
Proof.
  destruct x, y; simpl; intros Hx Hy; try discriminate; eauto.
Qed.

Lemma not_ltb_leb x y :
  Double.is_nan x = false -> Double.is_nan y = false ->
  Double.ltb x y = false -> Double.leb y x = true.
Proof.
  intros Hx Hy. unfold Double.ltb, Double.leb, SFltb, SFleb.
  rewrite (SFcompare_antisym x y).
  destruct (SFcompare_not_nan x y Hx Hy) as [c ->].
  destruct c; simpl; intros H; try reflexivity; discriminate.
Qed.

Lemma clamp_bounds v lo hi :
  Double.leb lo hi = true -> Double.is_nan v = false ->
  Double.leb lo (Double.clamp v lo hi) = true /\ Double.leb (Double.clamp v lo hi) hi = true.
Proof.
  intros Hb Hv. destruct (leb_not_nan _ _ Hb) as [Hlo Hhi].
  unfold Double.clamp.
  destruct (Double.ltb v lo) eqn:E1.
  - split; [apply leb_refl; assumption | assumption].
  - destruct (Double.ltb hi v) eqn:E2.
    + split; [assumption | apply leb_refl; assumption].
    + split; apply not_ltb_leb; assumption.
Qed.

(** *** Rounding never makes a NaN of a magnitude *)
Lemma iter_pos_invariant {A} (P : A -> Prop) (f : A -> A) :
  (forall x, P x -> P (f x)) -> forall p x, P x -> P (iter_pos f p x).
Proof.
  intros Hf. induction p as [p IH | p IH |]; intros x Hx; simpl; auto.
Qed.

Lemma shr_1_nonneg mrs : 0 <= shr_m mrs -> 0 <= shr_m (shr_1 mrs).
Proof.
  destruct mrs as [m r s]. simpl. destruct m as [| p | p]; simpl; try lia.
  - destruct p; simpl; lia.
Qed.

Lemma shr_nonneg mrs e n : 0 <= shr_m mrs -> 0 <= shr_m (fst (shr mrs e n)).
Proof.
  intros H. unfold shr. destruct n; simpl; try assumption.
  apply (iter_pos_invariant (fun r => 0 <= shr_m r)); [apply shr_1_nonneg | assumption].
Qed.

Lemma shr_record_of_loc_m m l : shr_m (shr_record_of_loc m l) = m.
Proof. destruct l as [| []]; reflexivity. Qed.

Lemma shr_fexp_nonneg prec emax m e l : 0 <= m -> 0 <= shr_m (fst (shr_fexp prec emax m e l)).
Proof.
  intros H. unfold shr_fexp. apply shr_nonneg. rewrite shr_record_of_loc_m. assumption.
Qed.

Lemma round_nearest_even_nonneg m l : 0 <= m -> 0 <= round_nearest_even m l.
Proof.
  intros H. unfold round_nearest_even. destruct l as [| []]; try lia.
  destruct (Z.even m); lia.
Qed.

Lemma binary_round_aux_not_nan prec emax sx mx ex lx :
  0 <= mx -> Double.is_nan (binary_round_aux prec emax sx mx ex lx) = false.
Proof.
  intros H. unfold binary_round_aux.
  pose proof (shr_fexp_nonneg prec emax mx ex lx H) as H1.
  destruct (shr_fexp prec emax mx ex lx) as [mrs' e']. cbn [fst] in H1.
  pose proof (shr_fexp_nonneg prec emax _ e' loc_Exact
                (round_nearest_even_nonneg _ (loc_of_shr_record mrs') H1)) as H2.
  destruct (shr_fexp prec emax (round_nearest_even (shr_m mrs') (loc_of_shr_record mrs')) e' loc_Exact)
    as [mrs'' e'']. cbn [fst] in H2.
  destruct (shr_m mrs'') as [| m | m]; [reflexivity | | lia].
  destruct (e'' <=? emax - prec); reflexivity.
Qed.

Lemma binary_normalize_not_nan prec emax m e szero :
  Double.is_nan (binary_normalize prec emax m e szero) = false.
Proof.
  unfold binary_normalize, binary_round. destruct m as [| p | p]; [reflexivity | |].
  - destruct (shl_align _ _ _) as [mz ez]. apply binary_round_aux_not_nan. lia.
  - destruct (shl_align _ _ _) as [mz ez]. apply binary_round_aux_not_nan. lia.
Qed.

Lemma add_finite_not_nan x y :
  Double.is_finite x = true -> Double.is_finite y = true -> Double.is_nan (Double.add x y) = false.
Proof.
  unfold Double.add, SFadd.
  destruct x as [sx | sx | | sx mx ex], y as [sy | sy | | sy my ey]; simpl; intros Hx Hy;
    try discriminate; try reflexivity.
  - destruct sx, sy; reflexivity.
  - apply binary_normalize_not_nan.
Qed.

Lemma sub_finite_not_nan x y :
  Double.is_finite x = true -> Double.is_nan y = false -> Double.is_nan (Double.sub x y) = false.
Proof.
  unfold Double.sub, SFsub.
  destruct x as [sx | sx | | sx mx ex], y as [sy | sy | | sy my ey]; simpl; intros Hx Hy;
    try discriminate; try reflexivity.
  - destruct sx, sy; reflexivity.
  - apply binary_normalize_not_nan.
Qed.

Lemma div_eucl_nonneg a b : 0 <= a -> 0 < b -> 0 <= fst (Z.div_eucl a b).
Proof.
  intros Ha Hb. change (fst (Z.div_eucl a b)) with (a / b). apply Z.div_pos; lia.
Qed.

Lemma div_finite_not_nan x sy my ey :
  Double.is_nan x = false -> Double.is_nan (Double.div x (S754_finite sy my ey)) = false.
Proof.
  unfold Double.div, SFdiv.
  destruct x as [sx | sx | | sx mx ex]; simpl; intros Hx; try discriminate; try reflexivity.
  unfold SFdiv_core_binary.
  match goal with |- context [Z.div_eucl ?a ?b] =>
    pose proof (div_eucl_nonneg a b) as Hq; destruct (Z.div_eucl a b) as [q r] end.
  cbn [fst] in Hq. apply binary_round_aux_not_nan. apply Hq; [| lia].
  match goal with |- 0 <= match ?s with _ => _ end => destruct s end; try lia.
  apply Z.shiftl_nonneg. lia.
Qed.

Lemma digits2_pos_iter_xO p k :
  Zpos (digits2_pos (Pos.iter xO p k)) = Zpos (digits2_pos p) + Zpos k.
Proof.
  induction k as [| k IH] using Pos.peano_ind.
  - simpl. lia.
  - rewrite Pos.iter_succ. cbn [digits2_pos]. lia.
Qed.

Lemma digits2_pos_bound p k : 0 <= k -> Zpos p < 2 ^ k -> Zpos (digits2_pos p) <= k.
Proof.
  revert k. induction p as [p IH | p IH |]; intros k Hk Hp.
  - assert (k <> 0) by (intros ->; simpl in Hp; lia).
    replace k with (Z.succ (k - 1)) in Hp by lia. rewrite Z.pow_succ_r in Hp by lia.
    specialize (IH (k - 1)). cbn [digits2_pos]. lia.
  - assert (k <> 0) by (intros ->; simpl in Hp; lia).
    replace k with (Z.succ (k - 1)) in Hp by lia. rewrite Z.pow_succ_r in Hp by lia.
    specialize (IH (k - 1)). cbn [digits2_pos]. lia.
  - assert (k <> 0) by (intros ->; simpl in Hp; lia). simpl. lia.
Qed.

Lemma of_Z_finite n :
  1 <= n < 2 ^ 32 -> exists m e, Double.of_Z n = S754_finite false m e.
Proof.
  intros Hn. destruct n as [| p | p]; try lia.
  assert (Hd : Zpos (digits2_pos p) <= 32) by (apply digits2_pos_bound; lia).
  unfold Double.of_Z, binary_normalize, binary_round, shl_align, fexp, emin.
  set (d := digits2_pos p) in *.
  unfold Double.prec, Double.emax.
  rewrite Z.add_0_r.
  replace (Z.max (Zpos d - 53) (3 - 1024 - 53)) with (Zpos d - 53) by lia.
  rewrite Z.sub_0_r.
  destruct (Zpos d - 53) as [| q | q] eqn:Eq; try lia.
  unfold binary_round_aux, shr_fexp, fexp, emin.
  cbn [Zdigits2 shr_record_of_loc].
  rewrite digits2_pos_iter_xO. fold d.
  replace (Z.max (Zpos d + Zpos q + Zneg q - 53) (3 - 1024 - 53) - Zneg q) with 0 by lia.
  cbn [shr shr_m loc_of_shr_record round_nearest_even Zdigits2 shr_record_of_loc].
  rewrite digits2_pos_iter_xO. fold d.
  replace (Z.max (Zpos d + Zpos q + Zneg q - 53) (3 - 1024 - 53) - Zneg q) with 0 by lia.
  cbn [shr shr_m].
  destruct (Z.leb_spec (Zneg q) (1024 - 53)); [| lia].
  eauto.
Qed.

(* ================================================================== *)
(** ** Equal tab widths *)

Lemma TabItems_Size_finite tv :
  (1 <= List.length (TabItems tv))%nat ->
  Z.of_nat (List.length (TabItems tv)) < 2 ^ 32 ->
  exists m e, TabItems_Size tv = S754_finite false m e.
Proof.
  intros H1 H2. unfold TabItems_Size. apply of_Z_finite.
  unfold UInt32.of_nat, UInt32.modulus. rewrite Z.mod_small; lia.
Qed.

(** With a finite available width, a finite padding and at least one tab,
    the proportional width is a number. *)
Lemma tabWidthForScroller_not_nan tv :
  (1 <= List.length (TabItems tv))%nat ->
  Z.of_nat (List.length (TabItems tv)) < 2 ^ 32 ->
  Double.is_finite (availableWidth tv) = true ->
  Double.is_finite (Left (Padding tv)) = true ->
  Double.is_finite (Right (Padding tv)) = true ->
  Double.is_nan (tabWidthForScroller tv) = false.
Proof.
  intros H1 H2 Ha Hl Hr. unfold tabWidthForScroller.
  destruct (TabItems_Size_finite tv H1 H2) as (m & e & ->).
  apply div_finite_not_nan. apply sub_finite_not_nan; [assumption |].
  apply add_finite_not_nan; assumption.
Qed.

(** The loop over the tabs adds nothing to the trace but the width it is
    given, on some of the tabs. *)
Lemma UpdateTabWidths_items_trace items tabWidth tv :
  exists tabs,
    trace (final_state (UpdateTabWidths_items items tabWidth tv)) =
      trace tv ++ map (fun tvi => TabViewItem_Width tvi tabWidth) tabs.
Proof.
  revert tv. induction items as [| item items IH]; intros tv.
  - exists []. simpl. now rewrite app_nil_r.
  - cbn [UpdateTabWidths_items]. unfold bind at 1.
    assert (Hstep : forall tvi, exists tabs,
               trace (final_state
                        ((match tvi with
                          | Some tvi => lift (emit (TabViewItem_Width tvi tabWidth))
                          | None => ret tt
                          end ;;; UpdateTabWidths_items items tabWidth)%tabview tv)) =
               trace tv ++ map (fun tvi => TabViewItem_Width tvi tabWidth) tabs).
    { intros [tvi |]; unfold bind, lift, ret.
      - destruct (IH (emit (TabViewItem_Width tvi tabWidth) tv)) as [tabs E].
        exists (tvi :: tabs). rewrite E. cbn [trace emit map].
        rewrite <- app_assoc. reflexivity.
      - apply IH. }
    destruct (try_as TabViewItemClass (Some item)) as [tvi |]; [exact (Hstep (Some tvi)) |].
    destruct (ContainerFromItem (Some item) tv) as [container |].
    + unfold as_. destruct (implements (obj_class container) TabViewItemClass).
      * exact (Hstep (Some container)).
      * exists []. simpl. now rewrite app_nil_r.
    + exact (Hstep None).
Qed.

Lemma TabItems_Size_of_count tv :
  Z.of_nat (List.length (TabItems tv)) < 2 ^ 32 ->
  TabItems_Size tv = Double.of_Z (Z.of_nat (List.length (TabItems tv))).
Proof.
  intros H. unfold TabItems_Size, UInt32.of_nat, UInt32.modulus.
  rewrite Z.mod_small by lia. reflexivity.
Qed.

(** The scroll bar is set on the host list when there is one. *)
Lemma set_ScrollBarVisibility_trace v tv0 tv :
  m_listView tv0 = m_listView tv ->
  trace (set_ScrollBarVisibility v tv0) =
    trace tv0 ++ match m_listView tv with
                 | Some _ => [ListView_HorizontalScrollBarVisibility v]
                 | None => []
                 end.
Proof.
  intros E. unfold set_ScrollBarVisibility. rewrite E.
  destruct (m_listView tv); [reflexivity | now rewrite app_nil_r].
Qed.

(** C1, as stated, fails: in [Equal] mode with three tabs, a finite
    available width and the default bounds, but a template without the
    tab column, the width computation is skipped and the width set on the
    tabs is NaN, which is not between the bounds. *)
Lemma UpdateTabWidths_Equal_mode_without_tab_column :
  ~ (forall (tv : TabView) (tvi : IInspectable) (w : Double.t),
        TabWidthMode tv = Equal ->
        (1 <= List.length (TabItems tv))%nat ->
        Double.is_finite (availableWidth tv) = true ->
        Double.is_finite (Left (Padding tv)) = true ->
        Double.is_finite (Right (Padding tv)) = true ->
        Double.leb (minTabWidth tv) (maxTabWidth tv) = true ->
        trace tv = [] ->
        In (TabViewItem_Width tvi w) (trace (final_state (UpdateTabWidths tv))) ->
        Double.leb (minTabWidth tv) w = true /\ Double.leb w (maxTabWidth tv) = true).
Proof.
  intros H.
  specialize (H view_without_tab_column (tab_item 1) Double.quiet_NaN
                eq_refl ltac:(simpl; lia) eq_refl eq_refl eq_refl eq_refl eq_refl).
  destruct H as [H _]; [left; reflexivity |]. vm_compute in H. discriminate H.
Qed.

(** C1 (amended): in [Equal] mode, when the template has the tab
    container grid and the tab column, for every tab count N >= 1, every
    finite available width and padding, and bounds with
    minTabWidth <= maxTabWidth, the width computation sets
    tabWidth = clamp((availableWidth - (padding.Left + padding.Right)) / N,
    minTabWidth, maxTabWidth), so minTabWidth <= tabWidth <= maxTabWidth.
    If tabWidth * N >= availableWidth the tab column is set to exactly
    availableWidth pixels and the horizontal scroll bar of the host list,
    when there is a host list, to visible; otherwise the column is set to
    auto and the scroll bar to hidden.  Nothing else is called but the
    width of tabs, with that width. *)
Theorem UpdateTabWidths_Equal_mode
    (tv : TabView) (tabGrid : unit) (tabColumn : ColumnDefinition) :
  TabWidthMode tv = Equal ->
  m_tabContainerGrid tv = Some tabGrid ->
  m_tabColumn tv = Some tabColumn ->
  (1 <= List.length (TabItems tv))%nat ->
  Z.of_nat (List.length (TabItems tv)) < 2 ^ 32 ->
  Double.is_finite (availableWidth tv) = true ->
  Double.is_finite (Left (Padding tv)) = true ->
  Double.is_finite (Right (Padding tv)) = true ->
  Double.leb (minTabWidth tv) (maxTabWidth tv) = true ->
  exists tabWidth tabs,
    tabWidth =
      Double.clamp
        (Double.div
           (Double.sub (availableWidth tv)
              (Double.add (Left (Padding tv)) (Right (Padding tv))))
           (Double.of_Z (Z.of_nat (List.length (TabItems tv)))))
        (minTabWidth tv) (maxTabWidth tv) /\
    fst (UpdateTabWidths_column tv) = tabWidth /\
    Double.leb (minTabWidth tv) tabWidth = true /\
    Double.leb tabWidth (maxTabWidth tv) = true /\
    (Double.geb (Double.mul tabWidth (Double.of_Z (Z.of_nat (List.length (TabItems tv)))))
                (availableWidth tv) = true ->
     trace (final_state (UpdateTabWidths tv)) =
       trace (set_rightContentColumn_MinWidth tv)
       ++ [TabColumn_MaxWidth (availableWidth tv);
           TabColumn_Width (GridLength_Pixel (availableWidth tv))]
       ++ match m_listView tv with
          | Some _ => [ListView_HorizontalScrollBarVisibility ScrollBar_Visible]
          | None => []
          end
       ++ map (fun tvi => TabViewItem_Width tvi tabWidth) tabs) /\
    (Double.geb (Double.mul tabWidth (Double.of_Z (Z.of_nat (List.length (TabItems tv)))))
                (availableWidth tv) = false ->
     trace (final_state (UpdateTabWidths tv)) =
       trace (set_rightContentColumn_MinWidth tv)
       ++ [TabColumn_MaxWidth (availableWidth tv);
           TabColumn_Width (GridLength_Auto (Double.of_Z 1))]
       ++ match m_listView tv with
          | Some _ => [ListView_HorizontalScrollBarVisibility ScrollBar_Hidden]
          | None => []
          end
       ++ map (fun tvi => TabViewItem_Width tvi tabWidth) tabs).
Proof.
  intros Hmode Hgrid Hcol H1 H2 Ha Hl Hr Hbounds.
  pose proof (tabWidthForScroller_not_nan tv H1 H2 Ha Hl Hr) as Hnan.
  destruct (clamp_bounds _ _ _ Hbounds Hnan) as [Hlo Hhi].
  pose proof (TabItems_Size_of_count tv H2) as EN.
  assert (Ew : tabWidthForScroller tv =
               Double.div
                 (Double.sub (availableWidth tv)
                    (Double.add (Left (Padding tv)) (Right (Padding tv))))
                 (Double.of_Z (Z.of_nat (List.length (TabItems tv)))))
    by (unfold tabWidthForScroller; rewrite EN; reflexivity).
  rewrite Ew in Hlo, Hhi.
  set (N := Double.of_Z (Z.of_nat (List.length (TabItems tv)))) in *.
  set (tabWidth :=
         Double.clamp
           (Double.div
              (Double.sub (availableWidth tv)
                 (Double.add (Left (Padding tv)) (Right (Padding tv)))) N)
           (minTabWidth tv) (maxTabWidth tv)) in *.
  assert (Er : m_listView (set_rightContentColumn_MinWidth tv) = m_listView tv).
  { unfold set_rightContentColumn_MinWidth.
    destruct (m_rightContentColumn tv), (m_rightContentPresenter tv); reflexivity. }
  assert (Ecol : UpdateTabWidths_column tv =
            (tabWidth,
             if Double.geb (Double.mul tabWidth N) (availableWidth tv)
             then set_ScrollBarVisibility ScrollBar_Visible
                    (emit (TabColumn_Width (GridLength_Pixel (availableWidth tv)))
                       (emit (TabColumn_MaxWidth (availableWidth tv))
                          (set_rightContentColumn_MinWidth tv)))
             else set_ScrollBarVisibility ScrollBar_Hidden
                    (emit (TabColumn_Width (GridLength_Auto (Double.of_Z 1)))
                       (emit (TabColumn_MaxWidth (availableWidth tv))
                          (set_rightContentColumn_MinWidth tv))))).
  { unfold UpdateTabWidths_column. rewrite Hgrid, Hcol, Hmode, Ew, EN. fold N. fold tabWidth.
    destruct (Double.geb (Double.mul tabWidth N) (availableWidth tv)); reflexivity. }
  unfold UpdateTabWidths. rewrite Ecol. cbn [fst].
  destruct (Double.geb (Double.mul tabWidth N) (availableWidth tv)) eqn:Hgeb;
    match goal with
    | |- context [UpdateTabWidths_items ?items tabWidth ?st] =>
        destruct (UpdateTabWidths_items_trace items tabWidth st) as [tabs Etrace]
    end;
    exists tabWidth, tabs;
    (split; [reflexivity | split; [reflexivity | split; [exact Hlo | split; [exact Hhi |]]]]);
    (split; intros Hreq; rewrite Hgeb in Hreq; try discriminate Hreq);
    rewrite Etrace, (set_ScrollBarVisibility_trace _ _ tv) by exact Er;
    cbn [trace emit]; rewrite <- !app_assoc; reflexivity.
Qed.

(** The scenario of three tabs in 300: each tab is 100 wide, the column
    is fixed at 300 and the scroll bar is visible. *)
Lemma UpdateTabWidths_Equal_mode_witness :
  exists tabWidth tabs,
    tabWidth = Double.of_Z 100 /\
    fst (UpdateTabWidths_column three_tab_view) = tabWidth /\
    Double.leb c_tabMinimumWidth tabWidth = true /\
    Double.leb tabWidth c_tabMaximumWidth = true /\
    trace (final_state (UpdateTabWidths three_tab_view)) =
      [TabColumn_MaxWidth (Double.of_Z 300);
       TabColumn_Width (GridLength_Pixel (Double.of_Z 300));
       ListView_HorizontalScrollBarVisibility ScrollBar_Visible]
      ++ map (fun tvi => TabViewItem_Width tvi tabWidth) tabs.
Proof.
  destruct (UpdateTabWidths_Equal_mode three_tab_view tt
              {| column_ActualWidth := Double.zero |}
              eq_refl eq_refl eq_refl)
    as (tabWidth & tabs & Hformula & Hw & Hlo & Hhi & Hfixed & _).
  - simpl. lia.
  - vm_compute. reflexivity.
  - vm_compute. reflexivity.
  - reflexivity.
  - reflexivity.
  - vm_compute. reflexivity.
  - exists tabWidth, tabs.
    split; [rewrite Hformula; vm_compute; reflexivity |].
    split; [exact Hw | split; [exact Hlo | split; [exact Hhi |]]].
    apply Hfixed. rewrite Hformula. vm_compute. reflexivity.
Defined.

Example UpdateTabWidths_three_tabs_in_300 :
  fst (UpdateTabWidths_column three_tab_view) = Double.of_Z 100 /\
  UpdateTabWidths three_tab_view =
    Returned tt
      (fold_left (fun tv e => emit e tv)
         [TabColumn_MaxWidth (Double.of_Z 300);
          TabColumn_Width (GridLength_Pixel (Double.of_Z 300));
          ListView_HorizontalScrollBarVisibility ScrollBar_Visible;
          TabViewItem_Width (tab_item 1) (Double.of_Z 100);
          TabViewItem_Width (tab_item 2) (Double.of_Z 100);
          TabViewItem_Width (tab_item 3) (Double.of_Z 100)]
         three_tab_view).
Proof. split; vm_compute; reflexivity. Qed.

(* ================================================================== *)
(** * Further properties *)

(** ** The item count and the steps of Ctrl+Tab *)

(** X1: the item count is the size of the control's own sequence when no
    items source is bound, 0 for a bound source that is not iterable, and
    for an iterable source the number of its elements, except that an
    empty source counts as 1. *)
Theorem GetItemCount_of_each_source (tv : TabView) :
  (TabItemsSource tv = None ->
   Z.of_nat (List.length (TabItems tv)) <= Int32.max_signed ->
   GetItemCount tv = Z.of_nat (List.length (TabItems tv))) /\
  (TabItemsSource tv = Some NotIterable -> GetItemCount tv = 0) /\
  (forall elements,
      TabItemsSource tv = Some (Iterable elements) ->
      Z.of_nat (List.length elements) < Int32.max_signed ->
      GetItemCount tv = match elements with
                        | [] => 1
                        | _ :: _ => Z.of_nat (List.length elements)
                        end).
Proof.
  split; [| split].
  - intros E Hmax. unfold GetItemCount. rewrite E. apply UInt32_to_int_of_nat. exact Hmax.
  - intros E. unfold GetItemCount. rewrite E. reflexivity.
  - intros elements E Hmax. unfold GetItemCount. rewrite E.
    destruct elements as [| x elements]; [reflexivity |].
    rewrite GetItemCount_loop_count; [lia | discriminate | int32 | int32].
Qed.

Lemma GetItemCount_of_each_source_witness :
  GetItemCount
    {| m_tabContainerGrid := None; m_leftContentColumn := None; m_tabColumn := None;
       m_addButtonColumn := None; m_rightContentColumn := None;
       m_rightContentPresenter := None; m_listView := None; m_scrollViewer := None;
       ActualWidth := Double.zero; Padding := no_padding; TabWidthMode := Equal;
       TabItems := three_tabs; TabItemsSource := Some (Iterable []);
       SelectedIndex := -1; SelectedItem := None; ApplicationResources := [];
       VisualParent := []; trace := [] |} = 1.
Proof.
  match goal with |- GetItemCount ?tv = _ =>
    destruct (GetItemCount_of_each_source tv) as (_ & _ & H) end.
  apply (H [] eq_refl). vm_compute. reflexivity.
Defined.

Lemma SelectNextTab_forward tv :
  1 < GetItemCount tv ->
  2 * GetItemCount tv <= Int32.max_signed ->
  0 <= SelectedIndex tv < GetItemCount tv ->
  SelectNextTab 1 tv =
    (true, set_SelectedIndex ((SelectedIndex tv + 1) mod GetItemCount tv) tv).
Proof.
  intros Hn Hmax Hi. rewrite SelectNextTab_handled by int32.
  rewrite rem_plus_modulus by lia. reflexivity.
Qed.

Lemma SelectNextTab_backward tv :
  1 < GetItemCount tv ->
  2 * GetItemCount tv <= Int32.max_signed ->
  0 <= SelectedIndex tv < GetItemCount tv ->
  SelectNextTab (-1) tv =
    (true, set_SelectedIndex ((SelectedIndex tv - 1) mod GetItemCount tv) tv).
Proof.
  intros Hn Hmax Hi. rewrite SelectNextTab_handled by int32.
  rewrite Z.rem_mod_nonneg by lia.
  replace (SelectedIndex tv + -1 + GetItemCount tv)
    with (SelectedIndex tv - 1 + 1 * GetItemCount tv) by lia.
  rewrite Z.mod_add by lia. reflexivity.
Qed.

Lemma mod_successor i n :
  0 <= i < n -> (i + 1) mod n = if i + 1 <? n then i + 1 else 0.
Proof.
  intros H. destruct (Z.ltb_spec (i + 1) n).
  - apply Z.mod_small. lia.
  - replace (i + 1) with n by lia. apply Z.mod_same. lia.
Qed.

Lemma mod_predecessor i n :
  0 <= i < n -> (i - 1) mod n = if i =? 0 then n - 1 else i - 1.
Proof.
  intros H. destruct (Z.eqb_spec i 0) as [-> | Hne].
  - replace (0 - 1) with (n - 1 + -1 * n) by lia.
    rewrite Z.mod_add by lia. apply Z.mod_small. lia.
  - apply Z.mod_small. lia.
Qed.

(** A new value is passed on to the host list, once. *)
Lemma set_SelectedIndex_trace value tv listView :
  value <> SelectedIndex tv ->
  m_listView tv = Some listView ->
  trace (set_SelectedIndex value tv) = trace tv ++ [ListView_SelectedIndex value].
Proof.
  intros Hne Hl. unfold set_SelectedIndex.
  destruct (Z.eqb_spec value (SelectedIndex tv)); [contradiction |].
  unfold OnSelectedIndexPropertyChanged, UpdateSelectedIndex.
  cbn [m_listView with_SelectedIndex]. rewrite Hl. reflexivity.
Qed.

(** X2: with more than one tab and a tab selected, Ctrl+Tab selects the
    next tab and goes from the last tab to the first, Ctrl+Shift+Tab
    selects the previous tab and goes from the first to the last; each
    passes the new index on to the host list with one call. *)
Theorem SelectNextTab_steps_and_wraps (tv : TabView) (listView : ListView) :
  1 < GetItemCount tv ->
  2 * GetItemCount tv <= Int32.max_signed ->
  0 <= SelectedIndex tv < GetItemCount tv ->
  m_listView tv = Some listView ->
  SelectedIndex (snd (SelectNextTab 1 tv)) =
    (if SelectedIndex tv + 1 <? GetItemCount tv then SelectedIndex tv + 1 else 0) /\
  SelectedIndex (snd (SelectNextTab (-1) tv)) =
    (if SelectedIndex tv =? 0 then GetItemCount tv - 1 else SelectedIndex tv - 1) /\
  trace (snd (SelectNextTab 1 tv)) =
    trace tv ++ [ListView_SelectedIndex (SelectedIndex (snd (SelectNextTab 1 tv)))] /\
  trace (snd (SelectNextTab (-1) tv)) =
    trace tv ++ [ListView_SelectedIndex (SelectedIndex (snd (SelectNextTab (-1) tv)))].
Proof.
  intros Hn Hmax Hi Hl.
  rewrite SelectNextTab_forward, SelectNextTab_backward by assumption. cbn [snd].
  rewrite !SelectedIndex_set_SelectedIndex.
  rewrite mod_successor, mod_predecessor by lia.
  split; [reflexivity | split; [reflexivity | split]];
    apply set_SelectedIndex_trace with (listView := listView); try assumption.
  - destruct (Z.ltb_spec (SelectedIndex tv + 1) (GetItemCount tv)); lia.
  - destruct (Z.eqb_spec (SelectedIndex tv) 0); lia.
Qed.

Lemma SelectNextTab_steps_and_wraps_witness :
  SelectedIndex (snd (SelectNextTab 1 (with_SelectedIndex 2 three_tab_view))) = 0 /\
  SelectedIndex (snd (SelectNextTab (-1) (with_SelectedIndex 0 three_tab_view))) = 2.
Proof.
  split.
  - apply (SelectNextTab_steps_and_wraps (with_SelectedIndex 2 three_tab_view)
             (list_of_tabs three_tabs)).
    + vm_compute. reflexivity.
    + vm_compute. discriminate.
    + vm_compute. split; [discriminate | reflexivity].
    + reflexivity.
  - apply (SelectNextTab_steps_and_wraps (with_SelectedIndex 0 three_tab_view)
             (list_of_tabs three_tabs)).
    + vm_compute. reflexivity.
    + vm_compute. discriminate.
    + vm_compute. split; [discriminate | reflexivity].
    + reflexivity.
Defined.

(** X3: with more than one tab and a tab selected, Ctrl+Shift+Tab followed
    by Ctrl+Tab restores the selected index. *)
Theorem SelectNextTab_backward_forward (tv : TabView) :
  1 < GetItemCount tv ->
  2 * GetItemCount tv <= Int32.max_signed ->
  0 <= SelectedIndex tv < GetItemCount tv ->
  SelectedIndex (snd (SelectNextTab 1 (snd (SelectNextTab (-1) tv)))) = SelectedIndex tv.
Proof.
  intros Hn Hmax Hi.
  rewrite SelectNextTab_backward by assumption. cbn [snd].
  set (n := GetItemCount tv) in *. set (i := SelectedIndex tv) in *.
  assert (Hj : 0 <= (i - 1) mod n < n) by (apply Z.mod_pos_bound; lia).
  rewrite SelectNextTab_forward;
    rewrite ?GetItemCount_set_SelectedIndex, ?SelectedIndex_set_SelectedIndex;
    fold n; try assumption.
  cbn [snd]. rewrite SelectedIndex_set_SelectedIndex.
  rewrite Z.add_mod_idemp_l by lia. replace (i - 1 + 1) with i by lia.
  apply Z.mod_small. lia.
Qed.

Lemma SelectNextTab_backward_forward_witness :
  SelectedIndex
    (snd (SelectNextTab 1 (snd (SelectNextTab (-1) (with_SelectedIndex 0 three_tab_view))))) = 0.
Proof.
  apply (SelectNextTab_backward_forward (with_SelectedIndex 0 three_tab_view)).
  - vm_compute. reflexivity.
  - vm_compute. discriminate.
  - vm_compute. split; [discriminate | reflexivity].
Defined.

Lemma press_CtrlTab_spec tv k :
  1 < GetItemCount tv ->
  2 * GetItemCount tv <= Int32.max_signed ->
  0 <= SelectedIndex tv < GetItemCount tv ->
  GetItemCount (press_CtrlTab k tv) = GetItemCount tv /\
  SelectedIndex (press_CtrlTab k tv) = (SelectedIndex tv + Z.of_nat k) mod GetItemCount tv.
Proof.
  intros Hn Hmax Hi. induction k as [| k [IHn IHi]].
  - simpl. split; [reflexivity |]. rewrite Z.add_0_r. symmetry. apply Z.mod_small. lia.
  - unfold press_CtrlTab in *. rewrite !Nat.iter_succ.
    set (tv' := Nat.iter k (fun tv0 => snd (SelectNextTab 1 tv0)) tv) in *.
    assert (Hb : 0 <= SelectedIndex tv' < GetItemCount tv').
    { rewrite IHn, IHi. apply Z.mod_pos_bound. lia. }
    rewrite SelectNextTab_forward by (try assumption; rewrite IHn; assumption). cbn [snd].
    rewrite GetItemCount_set_SelectedIndex, SelectedIndex_set_SelectedIndex, IHn, IHi.
    split; [reflexivity |].
    rewrite Z.add_mod_idemp_l by lia. f_equal. lia.
Qed.

Lemma press_CtrlShiftTab_spec tv k :
  1 < GetItemCount tv ->
  2 * GetItemCount tv <= Int32.max_signed ->
  0 <= SelectedIndex tv < GetItemCount tv ->
  GetItemCount (press_CtrlShiftTab k tv) = GetItemCount tv /\
  SelectedIndex (press_CtrlShiftTab k tv) = (SelectedIndex tv - Z.of_nat k) mod GetItemCount tv.
Proof.
  intros Hn Hmax Hi. induction k as [| k [IHn IHi]].
  - simpl. split; [reflexivity |]. rewrite Z.sub_0_r. symmetry. apply Z.mod_small. lia.
  - unfold press_CtrlShiftTab in *. rewrite !Nat.iter_succ.
    set (tv' := Nat.iter k (fun tv0 => snd (SelectNextTab (-1) tv0)) tv) in *.
    assert (Hb : 0 <= SelectedIndex tv' < GetItemCount tv').
    { rewrite IHn, IHi. apply Z.mod_pos_bound. lia. }
    rewrite SelectNextTab_backward by (try assumption; rewrite IHn; assumption). cbn [snd].
    rewrite GetItemCount_set_SelectedIndex, SelectedIndex_set_SelectedIndex, IHn, IHi.
    split; [reflexivity |].
    rewrite Zminus_mod_idemp_l. f_equal. lia.
Qed.

(** X4: with more than one tab and a tab selected, k presses of Ctrl+Tab
    move the selection k tabs forward around the strip, and k presses of
    Ctrl+Shift+Tab k tabs backward; as many presses as there are tabs, in
    either direction, come back to the tab they started from. *)
Theorem press_CtrlTab_cycles (tv : TabView) (k : nat) :
  1 < GetItemCount tv ->
  2 * GetItemCount tv <= Int32.max_signed ->
  0 <= SelectedIndex tv < GetItemCount tv ->
  SelectedIndex (press_CtrlTab k tv) = (SelectedIndex tv + Z.of_nat k) mod GetItemCount tv /\
  SelectedIndex (press_CtrlShiftTab k tv) = (SelectedIndex tv - Z.of_nat k) mod GetItemCount tv /\
  SelectedIndex (press_CtrlTab (Z.to_nat (GetItemCount tv)) tv) = SelectedIndex tv /\
  SelectedIndex (press_CtrlShiftTab (Z.to_nat (GetItemCount tv)) tv) = SelectedIndex tv.
Proof.
  intros Hn Hmax Hi.
  split; [apply press_CtrlTab_spec; assumption |].
  split; [apply press_CtrlShiftTab_spec; assumption |].
  split.
  - rewrite (proj2 (press_CtrlTab_spec tv _ Hn Hmax Hi)). rewrite Z2Nat.id by lia.
    replace (SelectedIndex tv + GetItemCount tv)
      with (SelectedIndex tv + 1 * GetItemCount tv) by lia.
    rewrite Z.mod_add by lia. apply Z.mod_small. lia.
  - rewrite (proj2 (press_CtrlShiftTab_spec tv _ Hn Hmax Hi)). rewrite Z2Nat.id by lia.
    replace (SelectedIndex tv - GetItemCount tv)
      with (SelectedIndex tv + -1 * GetItemCount tv) by lia.
    rewrite Z.mod_add by lia. apply Z.mod_small. lia.
Qed.

Lemma press_CtrlTab_cycles_witness :
  SelectedIndex (press_CtrlTab 3 (with_SelectedIndex 1 three_tab_view)) = 1.
Proof.
  destruct (press_CtrlTab_cycles (with_SelectedIndex 1 three_tab_view) 0)
    as (_ & _ & H & _).
  - vm_compute. reflexivity.
  - vm_compute. discriminate.
  - vm_compute. split; [discriminate | reflexivity].
  - exact H.
Defined.

(* ================================================================== *)
(** ** What [UpdateSelectedItem] writes to the host list *)

(** X5: with the host list present, the calls [UpdateSelectedItem] makes
    are to write a tab to the list's selected item and then to set that
    tab's is-selected flag: the selected item itself when it is a tab
    header, whether or not the list holds it, and otherwise its container
    when that is a tab header, never the data item.  With no host list,
    no selected item, or a container that is missing or is no tab header,
    it makes no call. *)
Theorem UpdateSelectedItem_writes_the_tab (tv : TabView) :
  (forall listView tvi,
      m_listView tv = Some listView ->
      try_as TabViewItemClass (SelectedItem tv) = Some tvi ->
      trace (UpdateSelectedItem tv) =
        trace tv ++ [ListView_SelectedItem tvi; TabViewItem_IsSelected tvi true]) /\
  (forall listView container,
      m_listView tv = Some listView ->
      try_as TabViewItemClass (SelectedItem tv) = None ->
      try_as TabViewItemClass (ContainerFromItem (SelectedItem tv) tv) = Some container ->
      trace (UpdateSelectedItem tv) =
        trace tv ++ [ListView_SelectedItem container; TabViewItem_IsSelected container true]) /\
  (m_listView tv = None \/
   SelectedItem tv = None \/
   (try_as TabViewItemClass (SelectedItem tv) = None /\
    try_as TabViewItemClass (ContainerFromItem (SelectedItem tv) tv) = None) ->
   trace (UpdateSelectedItem tv) = trace tv).
Proof.
  unfold UpdateSelectedItem. split; [| split].
  - intros listView tvi -> ->. cbn [trace emit]. rewrite <- app_assoc. reflexivity.
  - intros listView container -> -> ->. cbn [trace emit]. rewrite <- app_assoc. reflexivity.
  - intros [-> | [E | [E1 E2]]]; [reflexivity | |].
    + rewrite E. unfold ContainerFromItem.
      destruct (m_listView tv); reflexivity.
    + rewrite E1, E2. destruct (m_listView tv); reflexivity.
Qed.

Lemma UpdateSelectedItem_writes_the_tab_witness :
  trace (UpdateSelectedItem
           (with_SelectedItem (Some (data_item 2))
              (control_of [data_item 1; data_item 2]
                 (Some {| lv_entries := [(data_item 1, Some (tab_item 11));
                                         (data_item 2, Some (tab_item 12))] |})))) =
    [ListView_SelectedItem (tab_item 12); TabViewItem_IsSelected (tab_item 12) true].
Proof.
  match goal with |- trace (UpdateSelectedItem ?tv) = _ =>
    destruct (UpdateSelectedItem_writes_the_tab tv) as (_ & H & _) end.
  apply (H {| lv_entries := [(data_item 1, Some (tab_item 11));
                             (data_item 2, Some (tab_item 12))] |} (tab_item 12));
    reflexivity.
Defined.

(* ================================================================== *)
(** ** Focus navigation the handler leaves alone, and the game controller *)

(** X6: the handler does nothing at all, and so neither cancels nor
    handles the event, when the direction is not Up or Down, when the old
    or the new focused element is not a tab header, when there is no host
    list, or when one of the two tab headers is not a container of this
    control's list. *)
Theorem OnListViewGettingFocus_leaves_other_navigation
    (args : GettingFocusEventArgs) (next : Ref) (tv : TabView) :
  is_Up_or_Down (Direction args) = false \/
  try_as TabViewItemClass (OldFocusedElement args) = None \/
  try_as TabViewItemClass (NewFocusedElement args) = None \/
  m_listView tv = None \/
  (exists listView oldItem,
      m_listView tv = Some listView /\
      try_as TabViewItemClass (OldFocusedElement args) = Some oldItem /\
      lv_IndexFromContainer listView oldItem = -1) \/
  (exists listView newItem,
      m_listView tv = Some listView /\
      try_as TabViewItemClass (NewFocusedElement args) = Some newItem /\
      lv_IndexFromContainer listView newItem = -1) ->
  OnListViewGettingFocus args next tv = tv.
Proof.
  unfold OnListViewGettingFocus.
  intros [E | [E | [E | [E | [(listView & oldItem & El & Eo & Ei)
                             | (listView & newItem & El & En & Ei)]]]]].
  - rewrite E. reflexivity.
  - rewrite E. destruct (is_Up_or_Down (Direction args)); reflexivity.
  - rewrite E. destruct (is_Up_or_Down (Direction args)); [| reflexivity].
    destruct (try_as TabViewItemClass (OldFocusedElement args)); reflexivity.
  - rewrite E. destruct (is_Up_or_Down (Direction args)); [| reflexivity].
    destruct (try_as TabViewItemClass (OldFocusedElement args)); [| reflexivity].
    destruct (try_as TabViewItemClass (NewFocusedElement args)); reflexivity.
  - rewrite El, Eo, Ei. destruct (is_Up_or_Down (Direction args)); [| reflexivity].
    destruct (try_as TabViewItemClass (NewFocusedElement args)); reflexivity.
  - rewrite El, En, Ei. destruct (is_Up_or_Down (Direction args)); [| reflexivity].
    destruct (try_as TabViewItemClass (OldFocusedElement args)); [| reflexivity].
    cbn [Z.eqb negb andb]. rewrite andb_false_r. reflexivity.
Qed.

Lemma OnListViewGettingFocus_leaves_other_navigation_witness :
  OnListViewGettingFocus
    {| Direction := Direction_Up;
       OldFocusedElement := Some (tab_item 3);
       NewFocusedElement := Some (tab_item 9);
       InputDevice := Device_Keyboard;
       is_IGettingFocusEventArgs2 := true |}
    None three_tab_view = three_tab_view.
Proof.
  apply OnListViewGettingFocus_leaves_other_navigation.
  do 5 right. exists (list_of_tabs three_tabs), (tab_item 9).
  split; [reflexivity | split; reflexivity].
Defined.

(** X7: for an Up or Down navigation between two tabs of this control
    that comes from a game controller, the handler does not cancel the
    navigation: it redirects the focus to the element the focus manager
    finds outside the list, through [TrySetNewFocusedElement] when the
    arguments support it and through a dispatched [SetFocus] otherwise,
    and then marks the event handled. *)
Theorem OnListViewGettingFocus_game_controller
    (args : GettingFocusEventArgs) (next : Ref) (tv : TabView)
    (listView : ListView) (oldItem newItem : IInspectable) :
  Direction args = Direction_Up \/ Direction args = Direction_Down ->
  try_as TabViewItemClass (OldFocusedElement args) = Some oldItem ->
  try_as TabViewItemClass (NewFocusedElement args) = Some newItem ->
  m_listView tv = Some listView ->
  lv_IndexFromContainer listView oldItem <> -1 ->
  lv_IndexFromContainer listView newItem <> -1 ->
  InputDevice args = Device_GameController ->
  trace (OnListViewGettingFocus args next tv) =
    trace tv ++ [if is_IGettingFocusEventArgs2 args
                 then GettingFocus_TrySetNewFocusedElement next
                 else Dispatcher_RunAsync_SetFocus next;
                 GettingFocus_Handled true].
Proof.
  intros Hdir Hold Hnew Hlist Hio Hin Hdev.
  unfold OnListViewGettingFocus.
  assert (Hud : is_Up_or_Down (Direction args) = true)
    by (destruct Hdir as [-> | ->]; reflexivity).
  rewrite Hud, Hold, Hnew, Hlist, Hdev.
  destruct (Z.eqb_spec (lv_IndexFromContainer listView oldItem) (-1)); [contradiction |].
  destruct (Z.eqb_spec (lv_IndexFromContainer listView newItem) (-1)); [contradiction |].
  cbn [negb andb is_GameController].
  destruct (is_IGettingFocusEventArgs2 args); cbn [trace emit];
    rewrite <- app_assoc; reflexivity.
Qed.

Lemma OnListViewGettingFocus_game_controller_witness :
  trace (OnListViewGettingFocus
           {| Direction := Direction_Down;
              OldFocusedElement := Some (tab_item 1);
              NewFocusedElement := Some (tab_item 2);
              InputDevice := Device_GameController;
              is_IGettingFocusEventArgs2 := false |}
           (Some (data_item 7)) three_tab_view) =
    [Dispatcher_RunAsync_SetFocus (Some (data_item 7)); GettingFocus_Handled true].
Proof.
  refine (OnListViewGettingFocus_game_controller
            {| Direction := Direction_Down;
               OldFocusedElement := Some (tab_item 1);
               NewFocusedElement := Some (tab_item 2);
               InputDevice := Device_GameController;
               is_IGettingFocusEventArgs2 := false |}
            (Some (data_item 7)) three_tab_view
            (list_of_tabs three_tabs) (tab_item 1) (tab_item 2) _ _ _ _ _ _ _).
  - right. reflexivity.
  - reflexivity.
  - reflexivity.
  - reflexivity.
  - vm_compute. discriminate.
  - vm_compute. discriminate.
  - reflexivity.
Defined.

(* ================================================================== *)
(** ** The tab of a dragged item *)

Lemma try_as_TabViewItem_class r tab :
  try_as TabViewItemClass r = Some tab -> r = Some tab /\ obj_class tab = TabViewItemClass.
Proof.
  intros E. pose proof (try_as_Some _ _ _ E) as ->. split; [reflexivity |].
  unfold try_as in E. destruct (obj_class tab); simpl in E; try discriminate. reflexivity.
Qed.

Lemma try_as_TabViewItem_of_class tab :
  obj_class tab = TabViewItemClass -> try_as TabViewItemClass (Some tab) = Some tab.
Proof. unfold try_as. intros ->. reflexivity. Qed.

Lemma FindTabViewItemFromDragItem_scan_found count i item tv tab :
  FindTabViewItemFromDragItem_scan count i item tv = Returned (Some tab) tv ->
  obj_class tab = TabViewItemClass /\
  exists index, ContainerFromIndex index tv = Some tab /\ Content_is tab item = true.
Proof.
  revert i. induction count as [| count IH]; intros i; cbn [FindTabViewItemFromDragItem_scan].
  - discriminate.
  - destruct (try_as TabViewItemClass (ContainerFromIndex i tv)) as [tabItem |] eqn:E;
      [| discriminate].
    destruct (Content_is tabItem item) eqn:Ec; [| apply IH].
    intros H. injection H as <-.
    apply try_as_TabViewItem_class in E. destruct E as [E Hc].
    split; [exact Hc |]. exists i. auto.
Qed.

(** X8: whenever the lookup of a dragged item's tab returns a tab, that
    tab is a tab header, and it is the item's container, or the visual
    parent of the item, or a container of the host list whose content is
    the item; the lookup does not change the control. *)
Theorem FindTabViewItemFromDragItem_returns_a_tab
    (item : IInspectable) (tv tv' : TabView) (tab : IInspectable) :
  FindTabViewItemFromDragItem item tv = Returned (Some tab) tv' ->
  tv' = tv /\
  obj_class tab = TabViewItemClass /\
  (ContainerFromItem (Some item) tv = Some tab \/
   GetParent item tv = Some tab \/
   exists index, ContainerFromIndex index tv = Some tab /\ Content_is tab item = true).
Proof.
  intros H. pose proof (FindTabViewItemFromDragItem_state _ _ _ _ H) as ->.
  split; [reflexivity |]. revert H. unfold FindTabViewItemFromDragItem.
  destruct (try_as TabViewItemClass (ContainerFromItem (Some item) tv)) as [t |] eqn:E1.
  - intros H. injection H as <-. apply try_as_TabViewItem_class in E1. tauto.
  - destruct (try_as FrameworkElementClass (Some item)) as [fe |] eqn:E2.
    + assert (fe = item) by (apply try_as_Some in E2; congruence). subst fe.
      destruct (try_as TabViewItemClass (GetParent item tv)) as [t |] eqn:E3.
      * intros H. injection H as <-. apply try_as_TabViewItem_class in E3. tauto.
      * intros H. apply FindTabViewItemFromDragItem_scan_found in H. tauto.
    + intros H. apply FindTabViewItemFromDragItem_scan_found in H. tauto.
Qed.

Lemma FindTabViewItemFromDragItem_returns_a_tab_witness :
  obj_class (tab_item 2) = TabViewItemClass /\
  (ContainerFromItem (Some (tab_item 2)) three_tab_view = Some (tab_item 2) \/
   GetParent (tab_item 2) three_tab_view = Some (tab_item 2) \/
   exists index, ContainerFromIndex index three_tab_view = Some (tab_item 2) /\
                 Content_is (tab_item 2) (tab_item 2) = true).
Proof.
  apply (FindTabViewItemFromDragItem_returns_a_tab
           (tab_item 2) three_tab_view three_tab_view (tab_item 2)).
  reflexivity.
Defined.

Lemma FindTabViewItemFromDragItem_scan_spec item tv :
  containers_are_tabs tv ->
  forall count i,
    0 <= i -> i + Z.of_nat count <= Int32.max_signed ->
    (forall k, i <= k < i + Z.of_nat count -> ContainerFromIndex k tv <> None) ->
    (forall j tab,
        i <= j < i + Z.of_nat count ->
        ContainerFromIndex j tv = Some tab -> Content_is tab item = true ->
        (forall j' tab', i <= j' < j -> ContainerFromIndex j' tv = Some tab' ->
                         Content_is tab' item = false) ->
        FindTabViewItemFromDragItem_scan count i item tv = Returned (Some tab) tv) /\
    ((forall j tab, i <= j < i + Z.of_nat count -> ContainerFromIndex j tv = Some tab ->
                    Content_is tab item = false) ->
     FindTabViewItemFromDragItem_scan count i item tv = Returned None tv).
Proof.
  intros Htabs. induction count as [| count IH]; intros i Hi Hmax Hgen.
  - split; [intros; lia | reflexivity].
  - cbn [FindTabViewItemFromDragItem_scan].
    destruct (ContainerFromIndex i tv) as [c |] eqn:Ec; [| exfalso; apply (Hgen i); [lia | exact Ec]].
    destruct (ContainerFromIndex_In _ _ _ Ec) as (listView & it & El & Hin).
    rewrite (try_as_TabViewItem_of_class c (Htabs _ _ _ El Hin)).
    rewrite Int32_add_in_range by int32.
    destruct (IH (i + 1)) as [IHfound IHnone]; [lia | lia | intros k Hk; apply Hgen; lia |].
    split.
    + intros j tab Hj Hc Hcontent Hbefore.
      destruct (Z.eq_dec i j) as [<- | Hne].
      * assert (c = tab) by congruence. subst c. rewrite Hcontent. reflexivity.
      * rewrite (Hbefore i c) by (lia || assumption).
        apply (IHfound j tab); [lia | assumption | assumption |].
        intros j' tab' Hj'. apply Hbefore. lia.
    + intros Hnone. rewrite (Hnone i c) by (lia || assumption).
      apply IHnone. intros j tab Hj. apply Hnone. lia.
Qed.

(** X9: when the dragged item has no tab for container and none for
    visual parent, and every tab's container is generated and is a tab
    header, the fallback scan never fails: it returns the first tab, in
    index order, whose content is the item, and null when no tab shows
    the item. *)
Theorem FindTabViewItemFromDragItem_by_content (item : IInspectable) (tv : TabView) :
  try_as TabViewItemClass (ContainerFromItem (Some item) tv) = None ->
  try_as TabViewItemClass (GetParent item tv) = None ->
  containers_are_tabs tv ->
  containers_generated tv ->
  Z.of_nat (List.length (TabItems tv)) <= Int32.max_signed ->
  (forall j tab,
      0 <= j < Z.of_nat (List.length (TabItems tv)) ->
      ContainerFromIndex j tv = Some tab -> Content_is tab item = true ->
      (forall j' tab', 0 <= j' < j -> ContainerFromIndex j' tv = Some tab' ->
                       Content_is tab' item = false) ->
      FindTabViewItemFromDragItem item tv = Returned (Some tab) tv) /\
  ((forall j tab, 0 <= j < Z.of_nat (List.length (TabItems tv)) ->
                  ContainerFromIndex j tv = Some tab -> Content_is tab item = false) ->
   FindTabViewItemFromDragItem item tv = Returned None tv).
Proof.
  intros Hc Hp Htabs Hgen Hmax.
  assert (E : FindTabViewItemFromDragItem item tv =
              FindTabViewItemFromDragItem_scan
                (List.length (TabItems tv)) 0 item tv).
  { unfold FindTabViewItemFromDragItem. rewrite Hc.
    assert (Ep : match try_as FrameworkElementClass (Some item) with
                 | Some fe => try_as TabViewItemClass (GetParent fe tv)
                 | None => None
                 end = None).
    { destruct (try_as FrameworkElementClass (Some item)) as [fe |] eqn:Ef; [| reflexivity].
      apply try_as_Some in Ef. injection Ef as <-. exact Hp. }
    rewrite Ep. unfold numItems_of.
    rewrite UInt32_to_int_of_nat by assumption. rewrite Nat2Z.id. reflexivity. }
  rewrite E.
  apply (FindTabViewItemFromDragItem_scan_spec item tv Htabs
           (List.length (TabItems tv)) 0); [lia | lia |].
  intros k Hk. apply Hgen. lia.
Qed.

Lemma FindTabViewItemFromDragItem_by_content_witness :
  FindTabViewItemFromDragItem (data_item 2)
    (control_of [tab_with_content 11 1; tab_with_content 12 2]
       (Some (list_of_tabs [tab_with_content 11 1; tab_with_content 12 2])))
  = Returned (Some (tab_with_content 12 2))
      (control_of [tab_with_content 11 1; tab_with_content 12 2]
         (Some (list_of_tabs [tab_with_content 11 1; tab_with_content 12 2]))).
Proof.
  match goal with |- FindTabViewItemFromDragItem ?item ?tv = _ =>
    destruct (FindTabViewItemFromDragItem_by_content item tv) as [Hfound _] end.
  - reflexivity.
  - reflexivity.
  - intros listView it container El Hin. injection El as <-.
    simpl in Hin. destruct Hin as [E | [E | []]]; injection E as _ <-; reflexivity.
  - intros index Hindex. simpl in Hindex.
    assert (index = 0 \/ index = 1) as [-> | ->] by lia; discriminate.
  - vm_compute. discriminate.
  - apply (Hfound 1 (tab_with_content 12 2)).
    + vm_compute. split; [discriminate | reflexivity].
    + reflexivity.
    + reflexivity.
    + intros j' tab' Hj' E. assert (j' = 0) by lia. subst j'.
      injection E as <-. reflexivity.
Defined.

(** X10: when the first dragged item's container is a tab header, a drag
    start raises exactly one drag-starting event, which carries that item
    and that tab, and makes no other call; with no dragged item at all
    the handler fails on [GetAt(0)] and raises nothing. *)
Theorem OnListViewDragItemsStarting_raises_once
    (args : DragItemsStartingEventArgs) (tv : TabView) :
  (forall item rest tab,
      Starting_Items args = item :: rest ->
      try_as TabViewItemClass (ContainerFromItem (Some item) tv) = Some tab ->
      OnListViewDragItemsStarting args tv =
        Returned tt (emit (TabDragStarting item (Some tab)) tv)) /\
  (Starting_Items args = [] ->
   OnListViewDragItemsStarting args tv = Failed hresult_out_of_bounds tv).
Proof.
  unfold OnListViewDragItemsStarting. split.
  - intros item rest tab Hitems Hc. rewrite Hitems.
    unfold GetAt. cbn [Z.ltb Z.compare Z.to_nat nth_error].
    unfold bind at 1. cbn [ret].
    rewrite (bind_Returned _ _ _ _ _ (FindTabViewItemFromDragItem_container _ _ _ Hc)).
    reflexivity.
  - intros ->. reflexivity.
Qed.

Lemma OnListViewDragItemsStarting_raises_once_witness :
  OnListViewDragItemsStarting {| Starting_Items := [tab_item 2; tab_item 3] |} three_tab_view
  = Returned tt (emit (TabDragStarting (tab_item 2) (Some (tab_item 2))) three_tab_view).
Proof.
  destruct (OnListViewDragItemsStarting_raises_once
              {| Starting_Items := [tab_item 2; tab_item 3] |} three_tab_view) as [H _].
  apply (H (tab_item 2) [tab_item 3] (tab_item 2)); reflexivity.
Defined.

(* ================================================================== *)
(** ** The widths set on the tabs *)

Lemma resolve_tab_same tv tv' item :
  m_listView tv' = m_listView tv -> resolve_tab tv' item = resolve_tab tv item.
Proof.
  intros E. unfold resolve_tab, ContainerFromItem. rewrite E. reflexivity.
Qed.

Lemma resolved_tabs_same tv tv' items :
  m_listView tv' = m_listView tv -> resolved_tabs tv' items = resolved_tabs tv items.
Proof.
  intros E. unfold resolved_tabs. apply flat_map_ext. intros item.
  rewrite (resolve_tab_same tv tv' item E). reflexivity.
Qed.

Lemma implements_TabViewItem c :
  implements c TabViewItemClass = true <-> c = TabViewItemClass.
Proof. destruct c; simpl; split; congruence. Qed.

(** The loop over items that all resolve to tab headers or to nothing. *)
Lemma UpdateTabWidths_items_resolved items tabWidth tv :
  (forall item container,
      In item items -> resolve_tab tv item = Some container ->
      obj_class container = TabViewItemClass) ->
  UpdateTabWidths_items items tabWidth tv =
    Returned tt
      (fold_left (fun tv tvi => emit (TabViewItem_Width tvi tabWidth) tv)
         (resolved_tabs tv items) tv).
Proof.
  revert tv. induction items as [| item items IH]; intros tv Hres; [reflexivity |].
  cbn [UpdateTabWidths_items]. unfold bind at 1.
  assert (Hrest : forall tv1, m_listView tv1 = m_listView tv ->
            UpdateTabWidths_items items tabWidth tv1 =
              Returned tt
                (fold_left (fun tv tvi => emit (TabViewItem_Width tvi tabWidth) tv)
                   (resolved_tabs tv items) tv1)).
  { intros tv1 E. rewrite <- (resolved_tabs_same tv tv1 items E). apply IH.
    intros x c Hx Hc. rewrite (resolve_tab_same tv tv1 x E) in Hc.
    apply (Hres x c); [right; exact Hx | exact Hc]. }
  pose proof (Hres item) as Hitem. unfold resolved_tabs. cbn [flat_map].
  fold (resolved_tabs tv items). unfold resolve_tab in *.
  destruct (try_as TabViewItemClass (Some item)) as [tvi |].
  - unfold bind, lift. cbn [app fold_left]. apply Hrest. reflexivity.
  - destruct (ContainerFromItem (Some item) tv) as [container |].
    + unfold as_. rewrite (Hitem container) by (auto; left; reflexivity).
      cbn [implements]. unfold bind, lift, ret. cbn [app fold_left].
      apply Hrest. reflexivity.
    + cbn [as_]. unfold bind, ret. cbn [app fold_left]. apply Hrest. reflexivity.
Qed.

Lemma trace_fold_emit (events : list Effect) tv :
  trace (fold_left (fun tv e => emit e tv) events tv) = trace tv ++ events.
Proof.
  revert tv. induction events as [| e events IH]; intros tv; cbn [fold_left].
  - now rewrite app_nil_r.
  - rewrite IH. cbn [trace emit]. rewrite <- app_assoc. reflexivity.
Qed.

Lemma fold_emit_Width tabs tabWidth tv :
  fold_left (fun tv tvi => emit (TabViewItem_Width tvi tabWidth) tv) tabs tv =
  fold_left (fun tv e => emit e tv) (map (fun tvi => TabViewItem_Width tvi tabWidth) tabs) tv.
Proof.
  revert tv. induction tabs as [| t tabs IH]; intros tv; [reflexivity |].
  cbn [fold_left map]. apply IH.
Qed.

Lemma resolve_tab_class tv item container :
  containers_are_tabs tv ->
  resolve_tab tv item = Some container -> obj_class container = TabViewItemClass.
Proof.
  intros Htabs. unfold resolve_tab.
  destruct (try_as TabViewItemClass (Some item)) as [tvi |] eqn:E.
  - intros H. injection H as <-. apply try_as_TabViewItem_class in E. apply E.
  - intros Hc. destruct (ContainerFromItem_In _ _ _ Hc) as (listView & it & El & Hin).
    apply (Htabs _ _ _ El Hin).
Qed.

Lemma same_properties_fold_emit (events : list Effect) tv :
  same_properties tv (fold_left (fun tv e => emit e tv) events tv).
Proof.
  revert tv. induction events as [| e events IH]; intros tv; cbn [fold_left].
  - apply same_properties_refl.
  - eapply same_properties_trans; [apply same_properties_emit | apply IH].
Qed.

(** [UpdateTabWidths] over containers that are tab headers. *)
Lemma UpdateTabWidths_resolved tv :
  containers_are_tabs tv ->
  exists tv',
    UpdateTabWidths tv = Returned tt tv' /\
    same_properties tv tv' /\
    trace tv' =
      trace (snd (UpdateTabWidths_column tv))
      ++ map (fun tvi => TabViewItem_Width tvi (fst (UpdateTabWidths_column tv)))
           (resolved_tabs tv (TabItems tv)).
Proof.
  intros Htabs. unfold UpdateTabWidths.
  pose proof (UpdateTabWidths_column_same tv) as Hcol.
  destruct (UpdateTabWidths_column tv) as [tabWidth tv1]. cbn [fst snd] in *.
  pose proof Hcol as (El & Ei & _).
  rewrite UpdateTabWidths_items_resolved.
  - eexists. split; [reflexivity |]. rewrite fold_emit_Width. split.
    + eapply same_properties_trans; [exact Hcol | apply same_properties_fold_emit].
    + rewrite trace_fold_emit, Ei. rewrite (resolved_tabs_same tv tv1 _ El). reflexivity.
  - intros item container _ Hc. rewrite (resolve_tab_same tv tv1 item El) in Hc.
    apply (resolve_tab_class tv item container Htabs Hc).
Qed.

(** X11: when the containers of the host list are tab headers,
    [UpdateTabWidths] returns, and after sizing the tab column it sets the
    computed width once on every tab that resolves, in the order of the
    collection, and on nothing else: a tab resolves as itself when the
    item is a tab header and as the item's container otherwise, and an
    item with no container is skipped. *)
Theorem UpdateTabWidths_sizes_each_resolved_tab (tv : TabView) :
  containers_are_tabs tv ->
  exists tv',
    UpdateTabWidths tv = Returned tt tv' /\
    same_properties tv tv' /\
    trace tv' =
      trace (snd (UpdateTabWidths_column tv))
      ++ map (fun tvi => TabViewItem_Width tvi (fst (UpdateTabWidths_column tv)))
           (resolved_tabs tv (TabItems tv)).
Proof. exact (UpdateTabWidths_resolved tv). Qed.

Lemma UpdateTabWidths_sizes_each_resolved_tab_witness :
  exists tv',
    UpdateTabWidths view_with_scroll_buttons = Returned tt tv' /\
    trace tv' = [TabViewItem_Width (tab_item 1) Double.quiet_NaN;
                 TabViewItem_Width (tab_item 2) Double.quiet_NaN;
                 TabViewItem_Width (tab_item 3) Double.quiet_NaN].
Proof.
  destruct (UpdateTabWidths_sizes_each_resolved_tab view_with_scroll_buttons)
    as (tv' & E & _ & Ht).
  - intros listView item container El Hin. injection El as <-.
    simpl in Hin. destruct Hin as [E | [E | [E | []]]]; injection E as _ <-; reflexivity.
  - exists tv'. split; [exact E | exact Ht].
Defined.

Lemma UpdateTabWidths_items_app items1 items2 tabWidth tv :
  UpdateTabWidths_items (items1 ++ items2) tabWidth tv =
    match UpdateTabWidths_items items1 tabWidth tv with
    | Returned _ tv' => UpdateTabWidths_items items2 tabWidth tv'
    | Failed f tv' => Failed f tv'
    end.
Proof.
  revert tv. induction items1 as [| item items1 IH]; intros tv; [reflexivity |].
  cbn [app UpdateTabWidths_items]. unfold bind at 1 3.
  match goal with
  | |- context [match ?m with Returned _ _ => _ | Failed _ _ => _ end] =>
      destruct m as [tvi tv1 | f tv1]
  end; [| reflexivity].
  unfold bind.
  destruct (match tvi with
            | Some tvi0 => lift (emit (TabViewItem_Width tvi0 tabWidth))
            | None => ret tt
            end tv1) as [u tv2 | f tv2]; [apply IH | reflexivity].
Qed.

(** X12: when an item that is no tab header has a container that is no
    tab header either (the plain list view item the host list makes for a
    data object), [UpdateTabWidths] fails with a no-interface error at
    that item: the tab column is sized and the tabs before the item have
    their width set, the item and the tabs after it have not. *)
Theorem UpdateTabWidths_fails_on_foreign_container
    (tv : TabView) (before after : list IInspectable) (item container : IInspectable) :
  TabItems tv = before ++ item :: after ->
  (forall x c, In x before -> resolve_tab tv x = Some c -> obj_class c = TabViewItemClass) ->
  try_as TabViewItemClass (Some item) = None ->
  ContainerFromItem (Some item) tv = Some container ->
  obj_class container <> TabViewItemClass ->
  exists tv',
    UpdateTabWidths tv = Failed hresult_no_interface tv' /\
    trace tv' =
      trace (snd (UpdateTabWidths_column tv))
      ++ map (fun tvi => TabViewItem_Width tvi (fst (UpdateTabWidths_column tv)))
           (resolved_tabs tv before).
Proof.
  intros Hitems Hbefore Hcast Hc Hclass. unfold UpdateTabWidths.
  pose proof (UpdateTabWidths_column_same tv) as Hcol.
  destruct (UpdateTabWidths_column tv) as [tabWidth tv1]. cbn [fst snd] in *.
  destruct Hcol as (El & Ei & _).
  rewrite Ei, Hitems, UpdateTabWidths_items_app.
  rewrite UpdateTabWidths_items_resolved.
  - rewrite (resolved_tabs_same tv tv1 _ El). rewrite fold_emit_Width.
    set (tv2 := fold_left (fun tv e => emit e tv) _ tv1).
    assert (El2 : m_listView tv2 = m_listView tv).
    { destruct (same_properties_fold_emit
                  (map (fun tvi => TabViewItem_Width tvi tabWidth) (resolved_tabs tv before))
                  tv1) as (E & _). fold tv2 in E. congruence. }
    exists tv2. split.
    + cbn [UpdateTabWidths_items]. unfold bind at 1. rewrite Hcast.
      replace (ContainerFromItem (Some item) tv2) with (ContainerFromItem (Some item) tv)
        by (unfold ContainerFromItem; rewrite El2; reflexivity).
      rewrite Hc. unfold as_.
      destruct (implements (obj_class container) TabViewItemClass) eqn:Ei'; [| reflexivity].
      apply implements_TabViewItem in Ei'. contradiction.
    + subst tv2. apply trace_fold_emit.
  - intros x c Hx Hr. rewrite (resolve_tab_same tv tv1 x El) in Hr.
    apply (Hbefore x c Hx Hr).
Qed.

Lemma UpdateTabWidths_fails_on_foreign_container_witness :
  exists tv',
    UpdateTabWidths
      (control_of [tab_item 1; data_item 2; tab_item 3]
         (Some {| lv_entries := [(tab_item 1, Some (tab_item 1));
                                 (data_item 2, Some (list_item 12));
                                 (tab_item 3, Some (tab_item 3))] |}))
    = Failed hresult_no_interface tv' /\
    count_events (fun e => match e with TabViewItem_Width _ _ => true | _ => false end)
      (trace tv') = 1%nat.
Proof.
  match goal with |- exists tv', UpdateTabWidths ?tv = _ /\ _ =>
    destruct (UpdateTabWidths_fails_on_foreign_container
                tv [tab_item 1] [tab_item 3] (data_item 2) (list_item 12))
      as (tv' & E & Ht)
  end.
  - reflexivity.
  - intros x c [<- | []] Hr. injection Hr as <-. reflexivity.
  - reflexivity.
  - reflexivity.
  - discriminate.
  - exists tv'. split; [exact E |]. rewrite Ht. vm_compute. reflexivity.
Defined.

Lemma UpdateTabWidths_column_unset tv :
  TabWidthMode tv = SizeToContent \/ m_tabContainerGrid tv = None \/ m_tabColumn tv = None ->
  fst (UpdateTabWidths_column tv) = Double.quiet_NaN.
Proof.
  unfold UpdateTabWidths_column. intros [E | [E | E]]; rewrite E.
  - destruct (m_tabContainerGrid tv); [| reflexivity].
    destruct (m_tabColumn tv); reflexivity.
  - reflexivity.
  - destruct (m_tabContainerGrid tv); reflexivity.
Qed.

(** X13: with containers that are tab headers, in [SizeToContent] mode
    and with the tab strip parts and the host list in place,
    [UpdateTabWidths] caps the tab column at the available width and sets
    it to auto, caps the list at the available width and puts its
    horizontal scroll bar on auto, and then sets the width NaN, which
    leaves a tab to size itself, on every tab; when the template has no
    tab container grid, in either mode, it calls nothing but that NaN
    width on every tab. *)
Theorem UpdateTabWidths_SizeToContent_mode (tv : TabView) :
  containers_are_tabs tv ->
  (forall tabGrid tabColumn listView,
      TabWidthMode tv = SizeToContent ->
      m_tabContainerGrid tv = Some tabGrid ->
      m_tabColumn tv = Some tabColumn ->
      m_listView tv = Some listView ->
      exists tv',
        UpdateTabWidths tv = Returned tt tv' /\
        trace tv' =
          trace (set_rightContentColumn_MinWidth tv)
          ++ [TabColumn_MaxWidth (availableWidth tv);
              TabColumn_Width (GridLength_Auto (Double.of_Z 1));
              ListView_MaxWidth (availableWidth tv);
              ListView_HorizontalScrollBarVisibility ScrollBar_Auto]
          ++ map (fun tvi => TabViewItem_Width tvi Double.quiet_NaN)
               (resolved_tabs tv (TabItems tv))) /\
  (m_tabContainerGrid tv = None ->
   exists tv',
     UpdateTabWidths tv = Returned tt tv' /\
     trace tv' =
       trace tv ++ map (fun tvi => TabViewItem_Width tvi Double.quiet_NaN)
                     (resolved_tabs tv (TabItems tv))).
Proof.
  intros Htabs.
  destruct (UpdateTabWidths_resolved tv Htabs) as (tv' & E & _ & Ht).
  split.
  - intros tabGrid tabColumn listView Hmode Hgrid Hcol Hlist.
    exists tv'. split; [exact E |]. rewrite Ht.
    rewrite (UpdateTabWidths_column_unset tv) by (left; exact Hmode).
    unfold UpdateTabWidths_column. rewrite Hgrid, Hcol, Hmode, Hlist.
    cbn [snd trace emit]. rewrite <- !app_assoc. reflexivity.
  - intros Hgrid. exists tv'. split; [exact E |]. rewrite Ht.
    rewrite (UpdateTabWidths_column_unset tv) by (right; left; exact Hgrid).
    unfold UpdateTabWidths_column. rewrite Hgrid. reflexivity.
Qed.

Lemma UpdateTabWidths_SizeToContent_mode_witness :
  exists tv',
    UpdateTabWidths view_with_scroll_buttons = Returned tt tv' /\
    trace tv' = [TabViewItem_Width (tab_item 1) Double.quiet_NaN;
                 TabViewItem_Width (tab_item 2) Double.quiet_NaN;
                 TabViewItem_Width (tab_item 3) Double.quiet_NaN].
Proof.
  destruct (UpdateTabWidths_SizeToContent_mode view_with_scroll_buttons) as [_ H].
  - intros listView item container El Hin. injection El as <-.
    simpl in Hin. destruct Hin as [E | [E | [E | []]]]; injection E as _ <-; reflexivity.
  - apply H. reflexivity.
Defined.

(* ================================================================== *)
(** ** Changes of the collection that leave the selection alone *)

Lemma UpdateTabWidths_items_final_same items tabWidth tv :
  same_properties tv (final_state (UpdateTabWidths_items items tabWidth tv)).
Proof.
  revert tv. induction items as [| item items IH]; intros tv.
  - apply same_properties_refl.
  - cbn [UpdateTabWidths_items]. unfold bind at 1.
    assert (Hstep : forall tvi,
               same_properties tv
                 (final_state
                    ((match tvi with
                      | Some tvi => lift (emit (TabViewItem_Width tvi tabWidth))
                      | None => ret tt
                      end ;;; UpdateTabWidths_items items tabWidth)%tabview tv))).
    { intros [tvi |]; unfold bind, lift, ret; [| apply IH].
      eapply same_properties_trans; [apply same_properties_emit | apply IH]. }
    destruct (try_as TabViewItemClass (Some item)) as [tvi |]; [exact (Hstep (Some tvi)) |].
    destruct (ContainerFromItem (Some item) tv) as [container |].
    + unfold as_. destruct (implements (obj_class container) TabViewItemClass).
      * exact (Hstep (Some container)).
      * apply same_properties_refl.
    + exact (Hstep None).
Qed.

(** Returning or failing, [UpdateTabWidths] changes no property. *)
Lemma UpdateTabWidths_final_same tv :
  same_properties tv (final_state (UpdateTabWidths tv)).
Proof.
  unfold UpdateTabWidths.
  pose proof (UpdateTabWidths_column_same tv) as Hcol.
  destruct (UpdateTabWidths_column tv) as [tabWidth tv1]. cbn [snd] in Hcol.
  eapply same_properties_trans; [exact Hcol | apply UpdateTabWidths_items_final_same].
Qed.

(** X14: a change of the collection that is not a removal, a removal that
    leaves no tab, and a removal at an index other than the selected one
    while a tab is selected, all leave the selection as it is: the
    handler only updates the tab widths. *)
Theorem OnItemsChanged_keeps_the_selection
    (item : option IVectorChangedEventArgs) (tv : TabView) :
  item = None \/
  (exists args,
      item = Some args /\
      (get_CollectionChange args <> ItemRemoved \/
       TabItems tv = [] \/
       (SelectedIndex tv <> -1 /\ SelectedIndex tv <> UInt32.to_int (Index args)))) ->
  OnItemsChanged item tv = Some (UpdateTabWidths tv) /\
  SelectedItem (final_state (UpdateTabWidths tv)) = SelectedItem tv /\
  SelectedIndex (final_state (UpdateTabWidths tv)) = SelectedIndex tv.
Proof.
  intros H. split.
  - unfold OnItemsChanged, OnItemsChanged_fuel.
    destruct H as [-> | (args & -> & H)]; [reflexivity |].
    assert (E : OnItemsChanged_reselect (List.length (TabItems tv)) args tv
                = Some (Returned tt tv)); [| rewrite E; reflexivity].
    unfold OnItemsChanged_reselect.
    destruct H as [Hc | [Hempty | [H1 H2]]].
    + destruct (get_CollectionChange args); try reflexivity. contradiction.
    + unfold numItems_of. rewrite Hempty. cbn [List.length].
      rewrite andb_false_r. reflexivity.
    + destruct (is_ItemRemoved (get_CollectionChange args) && (0 <? numItems_of tv));
        [| reflexivity].
      destruct (Z.eqb_spec (SelectedIndex tv) (-1)); [contradiction |].
      destruct (Z.eqb_spec (SelectedIndex tv) (UInt32.to_int (Index args))); [contradiction |].
      reflexivity.
  - destruct (UpdateTabWidths_final_same tv) as (_ & _ & Hi & Hx). auto.
Qed.

Lemma OnItemsChanged_keeps_the_selection_witness :
  SelectedIndex
    (final_state (UpdateTabWidths (with_SelectedIndex 0 three_tab_view))) = 0 /\
  OnItemsChanged (Some {| get_CollectionChange := ItemRemoved; Index := 2 |})
    (with_SelectedIndex 0 three_tab_view)
  = Some (UpdateTabWidths (with_SelectedIndex 0 three_tab_view)).
Proof.
  destruct (OnItemsChanged_keeps_the_selection
              (Some {| get_CollectionChange := ItemRemoved; Index := 2 |})
              (with_SelectedIndex 0 three_tab_view)) as (E & _ & Hx).
  - right. exists {| get_CollectionChange := ItemRemoved; Index := 2 |}.
    split; [reflexivity |]. right. right. split; vm_compute; discriminate.
  - split; [exact Hx | exact E].
Defined.

(* ================================================================== *)
(** ** The scroll buttons *)

Lemma ltb_leb a b : Double.ltb a b = true -> Double.leb a b = true.
Proof.
  unfold Double.ltb, Double.leb, SFltb, SFleb.
  destruct (SFcompare a b) as [[] |]; congruence.
Qed.

(** X15: a click on the scroll-decrease button asks the scroll viewer for
    one view change, to max(0, offset - 50): to the horizontal offset less
    50 when that is above 0 and to 0 otherwise, also when the offset is
    NaN; the offset asked for is never negative and never NaN, and is not
    below offset - 50 when that is a number.  A click on the
    scroll-increase button asks for min(scrollableWidth, offset + 50): for
    the offset plus 50 when that is below the scrollable width and for the
    scrollable width otherwise; when the scrollable width is a number the
    offset asked for is not above it, and it is not above offset + 50
    when that is a number too.  Without a scroll viewer neither asks for
    anything. *)
Theorem scroll_clicks_stay_in_range (scroll : ScrollMetrics) (tv : TabView) :
  (m_scrollViewer tv = None ->
   OnScrollDecreaseClick scroll tv = [] /\ OnScrollIncreaseClick scroll tv = []) /\
  (forall scrollViewer,
      m_scrollViewer tv = Some scrollViewer ->
      exists offset,
        OnScrollDecreaseClick scroll tv = [ScrollViewer_ChangeView offset] /\
        (Double.ltb Double.zero (Double.sub (HorizontalOffset scroll) c_scrollAmount) = true ->
         offset = Double.sub (HorizontalOffset scroll) c_scrollAmount) /\
        (Double.ltb Double.zero (Double.sub (HorizontalOffset scroll) c_scrollAmount) = false ->
         offset = Double.zero) /\
        Double.leb Double.zero offset = true /\
        (Double.is_nan (Double.sub (HorizontalOffset scroll) c_scrollAmount) = false ->
         Double.leb (Double.sub (HorizontalOffset scroll) c_scrollAmount) offset = true)) /\
  (forall scrollViewer,
      m_scrollViewer tv = Some scrollViewer ->
      exists offset,
        OnScrollIncreaseClick scroll tv = [ScrollViewer_ChangeView offset] /\
        (Double.ltb (Double.add (HorizontalOffset scroll) c_scrollAmount)
                    (ScrollableWidth scroll) = true ->
         offset = Double.add (HorizontalOffset scroll) c_scrollAmount) /\
        (Double.ltb (Double.add (HorizontalOffset scroll) c_scrollAmount)
                    (ScrollableWidth scroll) = false ->
         offset = ScrollableWidth scroll) /\
        (Double.is_nan (ScrollableWidth scroll) = false ->
         Double.leb offset (ScrollableWidth scroll) = true) /\
        (Double.is_nan (ScrollableWidth scroll) = false ->
         Double.is_nan (Double.add (HorizontalOffset scroll) c_scrollAmount) = false ->
         Double.leb offset (Double.add (HorizontalOffset scroll) c_scrollAmount) = true)).
Proof.
  unfold OnScrollDecreaseClick, OnScrollIncreaseClick. split; [| split].
  - intros ->. split; reflexivity.
  - intros scrollViewer ->. eexists. split; [reflexivity |].
    unfold std_max.
    destruct (Double.ltb Double.zero (Double.sub (HorizontalOffset scroll) c_scrollAmount))
      eqn:E.
    + split; [reflexivity | split; [discriminate | split]].
      * apply ltb_leb. exact E.
      * intros Hnan. apply leb_refl. exact Hnan.
    + split; [discriminate | split; [reflexivity | split; [reflexivity |]]].
      intros Hnan. apply not_ltb_leb; [reflexivity | exact Hnan | exact E].
  - intros scrollViewer ->. eexists. split; [reflexivity |].
    unfold std_min.
    destruct (Double.ltb (Double.add (HorizontalOffset scroll) c_scrollAmount)
                (ScrollableWidth scroll)) eqn:E.
    + split; [reflexivity | split; [discriminate | split]].
      * intros _. apply ltb_leb. exact E.
      * intros _ Hnan. apply leb_refl. exact Hnan.
    + split; [discriminate | split; [reflexivity | split]].
      * intros Hnan. apply leb_refl. exact Hnan.
      * intros Hw Hnan. apply not_ltb_leb; [exact Hnan | exact Hw | exact E].
Qed.

Lemma scroll_clicks_stay_in_range_witness :
  OnScrollDecreaseClick
    {| HorizontalOffset := Double.of_Z 30; ScrollableWidth := Double.of_Z 400 |}
    view_with_scroll_buttons = [ScrollViewer_ChangeView Double.zero] /\
  OnScrollDecreaseClick
    {| HorizontalOffset := Double.of_Z 130; ScrollableWidth := Double.of_Z 400 |}
    view_with_scroll_buttons = [ScrollViewer_ChangeView (Double.of_Z 80)] /\
  OnScrollIncreaseClick
    {| HorizontalOffset := Double.of_Z 380; ScrollableWidth := Double.of_Z 400 |}
    view_with_scroll_buttons = [ScrollViewer_ChangeView (Double.of_Z 400)] /\
  OnScrollIncreaseClick
    {| HorizontalOffset := Double.of_Z 100; ScrollableWidth := Double.of_Z 400 |}
    view_with_scroll_buttons = [ScrollViewer_ChangeView (Double.of_Z 150)].
Proof.
  split; [| split; [| split]].
  - destruct (scroll_clicks_stay_in_range
                {| HorizontalOffset := Double.of_Z 30; ScrollableWidth := Double.of_Z 400 |}
                view_with_scroll_buttons) as (_ & H & _).
    destruct (H _ eq_refl) as (offset & E & _ & Hzero & _). rewrite E.
    rewrite (Hzero eq_refl). reflexivity.
  - destruct (scroll_clicks_stay_in_range
                {| HorizontalOffset := Double.of_Z 130; ScrollableWidth := Double.of_Z 400 |}
                view_with_scroll_buttons) as (_ & H & _).
    destruct (H _ eq_refl) as (offset & E & Hless & _). rewrite E.
    rewrite (Hless eq_refl). vm_compute. reflexivity.
  - destruct (scroll_clicks_stay_in_range
                {| HorizontalOffset := Double.of_Z 380; ScrollableWidth := Double.of_Z 400 |}
                view_with_scroll_buttons) as (_ & _ & H).
    destruct (H _ eq_refl) as (offset & E & _ & Hwidth & _). rewrite E.
    rewrite (Hwidth eq_refl). reflexivity.
  - destruct (scroll_clicks_stay_in_range
                {| HorizontalOffset := Double.of_Z 100; ScrollableWidth := Double.of_Z 400 |}
                view_with_scroll_buttons) as (_ & _ & H).
    destruct (H _ eq_refl) as (offset & E & Hmore & _). rewrite E.
    rewrite (Hmore eq_refl). vm_compute. reflexivity.
Defined.

(** X16: [OnScrollViewerLoaded] hooks the click of the decrease button
    and then of the increase button and goes on to update the tab widths
    when both are in the scroll viewer's tree and are repeat buttons, and
    only updates the tab widths when there is no scroll viewer.  When the
    decrease button is there and the increase button is not, it fails on
    the null reference with the decrease click already hooked; when the
    element named ScrollDecreaseButton is not a repeat button, it fails
    with a no-interface error.  In both failures the tab widths are not
    updated. *)
Theorem OnScrollViewerLoaded_outcomes (tv : TabView) :
  (m_scrollViewer tv = None -> OnScrollViewerLoaded tv = UpdateTabWidths tv) /\
  (forall scrollViewer decrease increase,
      m_scrollViewer tv = Some scrollViewer ->
      FindInVisualTreeByName scrollViewer "ScrollDecreaseButton" = Some decrease ->
      FindInVisualTreeByName scrollViewer "ScrollIncreaseButton" = Some increase ->
      obj_class decrease = RepeatButtonClass ->
      obj_class increase = RepeatButtonClass ->
      OnScrollViewerLoaded tv =
        UpdateTabWidths
          (emit (Button_Click increase OnScrollIncreaseClick_handler)
             (emit (Button_Click decrease OnScrollDecreaseClick_handler) tv))) /\
  (forall scrollViewer decrease,
      m_scrollViewer tv = Some scrollViewer ->
      FindInVisualTreeByName scrollViewer "ScrollDecreaseButton" = Some decrease ->
      FindInVisualTreeByName scrollViewer "ScrollIncreaseButton" = None ->
      obj_class decrease = RepeatButtonClass ->
      OnScrollViewerLoaded tv =
        Failed null_dereference
          (emit (Button_Click decrease OnScrollDecreaseClick_handler) tv)) /\
  (forall scrollViewer element,
      m_scrollViewer tv = Some scrollViewer ->
      FindInVisualTreeByName scrollViewer "ScrollDecreaseButton" = Some element ->
      obj_class element <> RepeatButtonClass ->
      OnScrollViewerLoaded tv = Failed hresult_no_interface tv).
Proof.
  unfold OnScrollViewerLoaded. split; [| split; [| split]].
  - intros E. unfold bind, OnScrollViewerLoaded_buttons. rewrite E. reflexivity.
  - intros scrollViewer decrease increase Hs Hd Hi Hcd Hci.
    unfold bind at 1.
    rewrite (OnScrollViewerLoaded_buttons_found tv scrollViewer decrease increase)
      by assumption.
    reflexivity.
  - intros scrollViewer decrease Hs Hd Hi Hcd. apply bind_Failed.
    unfold OnScrollViewerLoaded_buttons. rewrite Hs, Hd, Hi.
    unfold bind, as_. rewrite Hcd. reflexivity.
  - intros scrollViewer element Hs Hd Hc. apply bind_Failed.
    unfold OnScrollViewerLoaded_buttons. rewrite Hs, Hd.
    unfold bind, as_.
    destruct (implements (obj_class element) RepeatButtonClass) eqn:E; [| reflexivity].
    destruct (obj_class element); simpl in E; try discriminate. contradiction.
Qed.

Lemma OnScrollViewerLoaded_outcomes_witness :
  OnScrollViewerLoaded view_with_scroll_buttons =
    UpdateTabWidths
      (emit (Button_Click (scroll_button 22) OnScrollIncreaseClick_handler)
         (emit (Button_Click (scroll_button 21) OnScrollDecreaseClick_handler)
            view_with_scroll_buttons)).
Proof.
  destruct (OnScrollViewerLoaded_outcomes view_with_scroll_buttons) as (_ & H & _).
  apply (H {| sv_visual_tree := [("ScrollDecreaseButton"%string, scroll_button 21);
                                 ("ScrollIncreaseButton"%string, scroll_button 22)] |});
    reflexivity.
Defined.

(* ================================================================== *)
(** ** Key chords: accelerator or key-down handler *)

(** X17: when the thread has a core window, each of the chords Ctrl+F4,
    Ctrl+Tab and Ctrl+Shift+Tab takes one path on every platform.  Where
    the constructor registers the chord's accelerator (RS3 and higher for
    Ctrl+F4, 19H1 and higher for the two Tab chords), [OnKeyDown] leaves
    the key and the control alone; where it does not, [OnKeyDown] runs
    the command and reports its result as handled.  When the thread has
    no core window [OnKeyDown] does nothing for any key, so that a chord
    whose accelerator is not registered takes no path at all. *)
Theorem key_chord_takes_one_path
    (platform : Platform) (args : KeyRoutedEventArgs) (tv : TabView) :
  (has_coreWindow args = false -> OnKeyDown platform args tv = (None, tv)) /\
  (has_coreWindow args = true -> isCtrlDown args = true ->
   (Key args = Key_F4 ->
    (In ctrlf4Accel (constructor_KeyboardAccelerators platform) /\
     OnKeyDown platform args tv = (None, tv)) \/
    (~ In ctrlf4Accel (constructor_KeyboardAccelerators platform) /\
     OnKeyDown platform args tv =
       (Some (fst (RequestCloseCurrentTab tv)), snd (RequestCloseCurrentTab tv)))) /\
   (Key args = Key_Tab -> isShiftDown args = false ->
    (In ctrlTabAccel (constructor_KeyboardAccelerators platform) /\
     OnKeyDown platform args tv = (None, tv)) \/
    (~ In ctrlTabAccel (constructor_KeyboardAccelerators platform) /\
     OnKeyDown platform args tv =
       (Some (fst (SelectNextTab 1 tv)), snd (SelectNextTab 1 tv)))) /\
   (Key args = Key_Tab -> isShiftDown args = true ->
    (In ctrlShiftTabAccel (constructor_KeyboardAccelerators platform) /\
     OnKeyDown platform args tv = (None, tv)) \/
    (~ In ctrlShiftTabAccel (constructor_KeyboardAccelerators platform) /\
     OnKeyDown platform args tv =
       (Some (fst (SelectNextTab (-1) tv)), snd (SelectNextTab (-1) tv))))).
Proof.
  split; [unfold OnKeyDown; intros ->; reflexivity |].
  intros Hw Hc. unfold OnKeyDown, constructor_KeyboardAccelerators.
  rewrite Hw, Hc.
  split; [| split].
  - intros ->. destruct (IsRS3OrHigher platform), (Is19H1OrHigher platform);
      cbn [negb app In].
    + left. auto.
    + left. auto.
    + right. split; [intros [H | [H | []]]; discriminate H |].
      destruct (RequestCloseCurrentTab tv); reflexivity.
    + right. split; [intros [] |]. destruct (RequestCloseCurrentTab tv); reflexivity.
  - intros -> ->. destruct (IsRS3OrHigher platform), (Is19H1OrHigher platform);
      cbn [negb andb app In].
    + left. auto.
    + right. split; [intros [H | []]; discriminate H |].
      destruct (SelectNextTab 1 tv); reflexivity.
    + left. auto.
    + right. split; [intros [] |]. destruct (SelectNextTab 1 tv); reflexivity.
  - intros -> ->. destruct (IsRS3OrHigher platform), (Is19H1OrHigher platform);
      cbn [negb andb app In].
    + left. auto.
    + right. split; [intros [H | []]; discriminate H |].
      destruct (SelectNextTab (-1) tv); reflexivity.
    + left. auto.
    + right. split; [intros [] |]. destruct (SelectNextTab (-1) tv); reflexivity.
Qed.

Lemma key_chord_takes_one_path_witness :
  OnKeyDown {| IsRS3OrHigher := true; Is19H1OrHigher := false |}
    {| Key := Key_Tab; has_coreWindow := true; isCtrlDown := true; isShiftDown := false |}
    (with_SelectedIndex 2 three_tab_view)
  = (Some true, snd (SelectNextTab 1 (with_SelectedIndex 2 three_tab_view))) /\
  OnKeyDown {| IsRS3OrHigher := false; Is19H1OrHigher := false |}
    {| Key := Key_F4; has_coreWindow := false; isCtrlDown := true; isShiftDown := false |}
    three_tab_view
  = (None, three_tab_view).
Proof.
  split.
  - destruct (key_chord_takes_one_path
                {| IsRS3OrHigher := true; Is19H1OrHigher := false |}
                {| Key := Key_Tab; has_coreWindow := true; isCtrlDown := true;
                   isShiftDown := false |}
                (with_SelectedIndex 2 three_tab_view)) as (_ & H).
    destruct (H eq_refl eq_refl) as (_ & Htab & _).
    destruct (Htab eq_refl eq_refl) as [[Hin _] | [_ E]].
    + simpl in Hin. destruct Hin as [Hin | []]. discriminate Hin.
    + exact E.
  - destruct (key_chord_takes_one_path
                {| IsRS3OrHigher := false; Is19H1OrHigher := false |}
                {| Key := Key_F4; has_coreWindow := false; isCtrlDown := true;
                   isShiftDown := false |}
                three_tab_view) as (H & _).
    exact (H eq_refl).
Defined.

(* ================================================================== *)
(** ** The content of the selected tab and the focus *)

(** X18: [UpdateTabContent] asks for the focus only when the presenter
    lost it while the content was swapped, and then once, after the
    layout, for the first focusable element of the new content or, when
    there is none, for the selected tab itself.  With no item selected it
    clears the presenter's content, template and template selector; with
    an item selected that resolves to no tab header, and with no
    presenter, it calls nothing and the presenter keeps what it shows. *)
Theorem UpdateTabContent_focus_and_content (env : ContentEnvironment) (tv : TabView) :
  (forall element,
      In (SetFocus element) (UpdateTabContent env tv) -> LosingFocus_raised env = true) /\
  (forall presenter tvi,
      m_tabContentPresenter env = Some presenter ->
      SelectedItem tv <> None ->
      (try_as TabViewItemClass (SelectedItem tv) = Some tvi \/
       (try_as TabViewItemClass (SelectedItem tv) = None /\
        try_as TabViewItemClass (ContainerFromItem (SelectedItem tv) tv) = Some tvi)) ->
      UpdateTabContent env tv =
        [TabContentPresenter_Content (Content tvi);
         TabContentPresenter_ContentTemplate (Some tvi);
         TabContentPresenter_ContentTemplateSelector (Some tvi);
         TabContentPresenter_UpdateLayout]
        ++ (if LosingFocus_raised env
            then [SetFocus (match FindFirstFocusableElement env with
                            | Some focusable => focusable
                            | None => tvi
                            end)]
            else [])) /\
  (forall presenter,
      m_tabContentPresenter env = Some presenter ->
      SelectedItem tv = None ->
      UpdateTabContent env tv =
        [TabContentPresenter_Content None;
         TabContentPresenter_ContentTemplate None;
         TabContentPresenter_ContentTemplateSelector None]) /\
  (m_tabContentPresenter env = None \/
   (SelectedItem tv <> None /\
    try_as TabViewItemClass (SelectedItem tv) = None /\
    try_as TabViewItemClass (ContainerFromItem (SelectedItem tv) tv) = None) ->
   UpdateTabContent env tv = []).
Proof.
  unfold UpdateTabContent. split; [| split; [| split]].
  - intros element.
    destruct (m_tabContentPresenter env); [| intros []].
    destruct (SelectedItem tv) as [item |].
    + match goal with
      | |- In _ (match ?t with Some _ => _ | None => _ end) -> _ => destruct t as [tvi |]
      end; [| intros []].
      destruct (LosingFocus_raised env); [reflexivity |].
      cbn [app In]. intros [H | [H | [H | [H | []]]]]; discriminate H.
    + cbn [In]. intros [H | [H | [H | []]]]; discriminate H.
  - intros presenter tvi -> Hsel Hres.
    destruct (SelectedItem tv) as [item |] eqn:Es; [| contradiction].
    destruct Hres as [-> | [-> ->]]; reflexivity.
  - intros presenter -> ->. reflexivity.
  - intros [-> | (Hsel & -> & ->)]; [reflexivity |].
    destruct (m_tabContentPresenter env); [| reflexivity].
    destruct (SelectedItem tv); [reflexivity | contradiction].
Qed.

Lemma UpdateTabContent_focus_and_content_witness :
  UpdateTabContent
    {| m_tabContentPresenter := Some tt; LosingFocus_raised := true;
       FindFirstFocusableElement := None |}
    (with_SelectedItem (Some (tab_with_content 12 2)) three_tab_view)
  = [TabContentPresenter_Content (Some 2%nat);
     TabContentPresenter_ContentTemplate (Some (tab_with_content 12 2));
     TabContentPresenter_ContentTemplateSelector (Some (tab_with_content 12 2));
     TabContentPresenter_UpdateLayout;
     SetFocus (tab_with_content 12 2)].
Proof.
  destruct (UpdateTabContent_focus_and_content
              {| m_tabContentPresenter := Some tt; LosingFocus_raised := true;
                 FindFirstFocusableElement := None |}
              (with_SelectedItem (Some (tab_with_content 12 2)) three_tab_view))
    as (_ & H & _).
  apply (H tt (tab_with_content 12 2)).
  - reflexivity.
  - discriminate.
  - left. reflexivity.
Defined.

(* ================================================================== *)
(** ** The selection the host list reports *)

(** X19: on a selection change of the host list the control takes over
    the list's selected index and selected item, so that afterwards the
    two properties agree with the list; it then refreshes the tab content
    and, last, raises its own selection-changed event, exactly once.
    With no host list the properties stay as they are and the event is
    raised all the same. *)
Theorem OnListViewSelectionChanged_mirrors_the_list
    (selection : ListViewSelection) (env : ContentEnvironment) (tv : TabView) :
  (forall listView,
      m_listView tv = Some listView ->
      SelectedIndex (fst (OnListViewSelectionChanged selection env tv))
        = lv_SelectedIndex selection /\
      same_ref (SelectedItem (fst (OnListViewSelectionChanged selection env tv)))
               (lv_SelectedItem selection) = true) /\
  (m_listView tv = None -> fst (OnListViewSelectionChanged selection env tv) = tv) /\
  snd (OnListViewSelectionChanged selection env tv) =
    UpdateTabContent env (fst (OnListViewSelectionChanged selection env tv))
    ++ [SelectionChanged_raised] /\
  List.length (filter (fun c => match c with SelectionChanged_raised => true | _ => false end)
                 (snd (OnListViewSelectionChanged selection env tv))) = 1%nat.
Proof.
  unfold OnListViewSelectionChanged. cbn [fst snd].
  split; [| split; [| split]].
  - intros listView ->.
    destruct (set_SelectedItem_spec (lv_SelectedItem selection)
                (set_SelectedIndex (lv_SelectedIndex selection) tv)) as (A & _ & _ & D).
    rewrite D, SelectedIndex_set_SelectedIndex. auto.
  - intros ->. reflexivity.
  - reflexivity.
  - rewrite filter_app, length_app. cbn [filter List.length].
    assert (H : forall tv1, filter (fun c => match c with
                                             | SelectionChanged_raised => true
                                             | _ => false
                                             end) (UpdateTabContent env tv1) = []).
    { intros tv1. unfold UpdateTabContent.
      repeat match goal with
             | |- context [match ?x with _ => _ end] => destruct x
             end; reflexivity. }
    rewrite H. reflexivity.
Qed.

Lemma OnListViewSelectionChanged_mirrors_the_list_witness :
  SelectedIndex
    (fst (OnListViewSelectionChanged
            {| lv_SelectedIndex := 1; lv_SelectedItem := Some (tab_item 2) |}
            {| m_tabContentPresenter := Some tt; LosingFocus_raised := false;
               FindFirstFocusableElement := None |}
            three_tab_view)) = 1.
Proof.
  destruct (OnListViewSelectionChanged_mirrors_the_list
              {| lv_SelectedIndex := 1; lv_SelectedItem := Some (tab_item 2) |}
              {| m_tabContentPresenter := Some tt; LosingFocus_raised := false;
                 FindFirstFocusableElement := None |}
              three_tab_view) as (H & _).
  destruct (H (list_of_tabs three_tabs) eq_refl) as [Hi _]. exact Hi.
Defined.
